(* ===========================================================================
   Lick searchable archive: the browser front end (src/frontend/src/frontend.js,
   login_controls.js and theme.js)

   A shallow embedding of the query-parameter builder, the observation-date
   conversion, the page-control algorithm, the result handler, the
   "download all" and "download selected" actions, the results table's row
   selection, the instrument check boxes, the login client and the theme
   switch, with the properties they satisfy.
   =========================================================================== *)

From Stdlib Require Import ZArith List String Ascii Bool Lia Sorted.
Import ListNotations.
Open Scope string_scope.
Open Scope Z_scope.
Open Scope list_scope.

(* ---------------------------------------------------------------------------
   JavaScript's String(n) on an integral number
   --------------------------------------------------------------------------- *)

Definition digit_char (d : Z) : ascii := ascii_of_nat (48 + Z.to_nat d).

(** Decimal digits of [n], prepended to [acc]; [fuel] bounds the number of
    divisions by ten. *)
Fixpoint digits_aux (fuel : nat) (n : Z) (acc : string) : string :=
  match fuel with
  | O => acc
  | S f =>
      if n =? 0 then acc
      else digits_aux f (n / 10) (String (digit_char (n mod 10)) acc)
  end.

(** [String(n)] for a non-negative integer. *)
Definition string_of_nonneg (n : Z) : string :=
  if n =? 0 then "0" else digits_aux (S (Z.to_nat (Z.log2 n))) n "".

(** [String(n)] for an integer [n]. *)
Definition string_of_Z (n : Z) : string :=
  if n <? 0 then String "-" (string_of_nonneg (- n)) else string_of_nonneg n.

(** The integers [a, a+1, ..., b] visited by [for (let i=a; i<=b; i++)]. *)
Fixpoint zseq (a : Z) (count : nat) : list Z :=
  match count with
  | O => []
  | S c => a :: zseq (a + 1) c
  end.

Definition zrange (a b : Z) : list Z := zseq a (Z.to_nat (b - a + 1)).

(* ---------------------------------------------------------------------------
   determinePages (frontend.js, lines 686-760)
   --------------------------------------------------------------------------- *)

Definition ellipses : string := "...".

(** The loop bounds and the two ellipsis flags, as computed by the
    [if (totalPages > maxControls + 2) ...] block. *)
Definition pageRangePlan (currentPage totalPages maxControls surroundingControls : Z)
  : Z * Z * bool * bool :=
  if totalPages >? maxControls + 2 then
    let changeOver := maxControls - (2 + surroundingControls) in
    if currentPage <=? changeOver then
      (* needEndEllipses = true, startRange = 2, endRange = maxControls - 2 *)
      (2, maxControls - 2, false, true)
    else if currentPage + surroundingControls <? totalPages then
      let endRange := currentPage + surroundingControls in
      ((endRange - (maxControls - 4)) + 1, endRange, true, true)
    else
      let endRange := totalPages in
      ((endRange - (maxControls - 3)) + 1, endRange, true, false)
  else (2, totalPages, false, false).

Definition determinePages (currentPage totalPages maxControls surroundingControls : Z)
  : list string :=
  let '(startRange, endRange, needStartEllipses, needEndEllipses) :=
    pageRangePlan currentPage totalPages maxControls surroundingControls in
  ["1"]
  ++ (if needStartEllipses then [ellipses] else [])
  ++ map string_of_Z (zrange startRange endRange)
  ++ (if needEndEllipses then [ellipses; string_of_Z totalPages] else []).

(* ---------------------------------------------------------------------------
   Evaluation with exceptions and fresh objects
   --------------------------------------------------------------------------- *)

(** A computation that allocates objects (the [nat] is the identity the next
    allocated object receives) and may throw (with the error's message). *)
Inductive Completion (A : Type) : Type :=
| Normal (result : A) (nextObject : nat)
| Thrown (message : string).
Arguments Normal {A} result nextObject.
Arguments Thrown {A} message.

Definition JS (A : Type) : Type := nat -> Completion A.

Definition ret {A} (a : A) : JS A := fun n => Normal a n.

Definition bind {A B} (m : JS A) (k : A -> JS B) : JS B :=
  fun n => match m n with
           | Normal a n' => k a n'
           | Thrown e => Thrown e
           end.

Definition throw {A} (message : string) : JS A := fun _ => Thrown message.

Notation "x <- m ;; k" := (bind m (fun x => k))
  (at level 61, m at next level, right associativity).

(* ---------------------------------------------------------------------------
   Date objects
   --------------------------------------------------------------------------- *)

Definition msPerDay : Z := 86400000.
Definition maxTimeValue : Z := 8640000000000000.

(** A [Date] object: its identity and its time value in ms since the epoch
    ([None] is NaN, an "Invalid Date"). *)
Record DateObj := { date_id : nat; date_value : option Z }.

(** TimeClip. *)
Definition timeClip (t : Z) : option Z :=
  if Z.abs t <=? maxTimeValue then Some t else None.

(** [new Date(timeValue)]: a fresh object. *)
Definition newDateFromTime (tv : option Z) : JS DateObj :=
  fun n => Normal {| date_id := n;
                     date_value := match tv with Some t => timeClip t | None => None end |}
                  (S n).

Definition getTime (d : DateObj) : option Z := date_value d.

(** [t + k] on a time value (NaN stays NaN). *)
Definition addTime (tv : option Z) (k : Z) : option Z :=
  match tv with Some t => Some (t + k) | None => None end.

(** [a > b] on time values (false as soon as one is NaN). *)
Definition gtTime (a b : option Z) : bool :=
  match a, b with Some x, Some y => x >? y | _, _ => false end.

(** [a == b] on two objects: true exactly for the same object. *)
Definition looseEqObj (a b : DateObj) : bool := Nat.eqb (date_id a) (date_id b).

(** Proleptic Gregorian day number (days since 1970-01-01) of [y-m-d];
    a day past the end of its month rolls over into the next month. *)
Definition days_from_civil (y m d : Z) : Z :=
  let y' := if m <=? 2 then y - 1 else y in
  let era := y' / 400 in
  let yoe := y' - era * 400 in
  let doy := (153 * (if m >? 2 then m - 3 else m + 9) + 2) / 5 + d - 1 in
  let doe := yoe * 365 + yoe / 4 - yoe / 100 + doy in
  era * 146097 + doe - 719468.

(** Civil date [(y, m, d)] of a day number. *)
Definition civil_from_days (z0 : Z) : Z * Z * Z :=
  let z := z0 + 719468 in
  let era := z / 146097 in
  let doe := z - era * 146097 in
  let yoe := (doe - doe / 1460 + doe / 36524 - doe / 146096) / 365 in
  let doy := doe - (365 * yoe + yoe / 4 - yoe / 100) in
  let mp := (5 * doy + 2) / 153 in
  let d := doy - (153 * mp + 2) / 5 + 1 in
  let m := if mp <? 10 then mp + 3 else mp - 9 in
  let y := yoe + era * 400 in
  (if m <=? 2 then y + 1 else y, m, d).

(** Value of a string of decimal digits (at least one digit). *)
Fixpoint digits_value (s : string) (acc : Z) : option Z :=
  match s with
  | EmptyString => Some acc
  | String c rest =>
      let k := Z.of_nat (nat_of_ascii c) - 48 in
      if (0 <=? k) && (k <=? 9) then digits_value rest (10 * acc + k) else None
  end.

Definition parseDigits (s : string) : option Z :=
  match s with EmptyString => None | _ => digits_value s 0 end.

Definition field (s : string) (start len : nat) : option Z :=
  parseDigits (substring start len s).

Definition charIs (s : string) (i : nat) (c : ascii) : bool :=
  match String.get i s with Some c' => Ascii.eqb c' c | None => false end.

(** The sign of the UTC offset at position 19: [-1] for '-', [1] for '+'. *)
Definition offsetSign (s : string) : option Z :=
  match String.get 19 s with
  | Some c => if Ascii.eqb c "-" then Some (-1) else if Ascii.eqb c "+" then Some 1 else None
  | None => None
  end.

(** The time value of [new Date(s)] for [s] of the shape
    ["YYYY-MM-DD hh:mm:ss-hhmm"] (or [+hhmm]), the shape the observation
    date search builds, as browsers read it: month 1..12, day 1..31 (rolled
    over past the month's end), hour 0..24, minute and second 0..59.  Any
    other string gives an Invalid Date. *)
Definition parseDateTime (s : string) : option Z :=
  if Nat.eqb (String.length s) 24 && charIs s 4 "-" && charIs s 7 "-" && charIs s 10 " "
     && charIs s 13 ":" && charIs s 16 ":" then
    match field s 0 4, field s 5 2, field s 8 2, field s 11 2, field s 14 2,
          field s 17 2, offsetSign s, field s 20 2, field s 22 2 with
    | Some y, Some mo, Some d, Some hh, Some mi, Some ss, Some sgn, Some oh, Some om =>
        if (1 <=? mo) && (mo <=? 12) && (1 <=? d) && (d <=? 31) && (hh <=? 24)
           && (mi <=? 59) && (ss <=? 59) && (oh <=? 23) && (om <=? 59) then
          Some (days_from_civil y mo d * msPerDay
                + ((hh * 60 + mi) * 60 + ss) * 1000
                - sgn * (oh * 60 + om) * 60000)
        else None
    | _, _, _, _, _, _, _, _, _ => None
    end
  else None.

(** [new Date(s)]. *)
Definition newDateFromString (s : string) : JS DateObj := newDateFromTime (parseDateTime s).

(** Zero-padded decimal of a non-negative integer. *)
Definition padZ (width : nat) (n : Z) : string :=
  let digits := string_of_nonneg n in
  String.append (String.concat "" (repeat "0" (width - String.length digits))) digits.

(** [Date.prototype.toISOString] on a valid time value. *)
Definition isoString (t : Z) : string :=
  let day := t / msPerDay in
  let msInDay := t mod msPerDay in
  let '(y, m, d) := civil_from_days day in
  let yearStr :=
    if (0 <=? y) && (y <=? 9999) then padZ 4 y
    else if y <? 0 then String.append "-" (padZ 6 (- y))
    else String.append "+" (padZ 6 y) in
  String.concat "" [yearStr; "-"; padZ 2 m; "-"; padZ 2 d; "T";
                    padZ 2 (msInDay / 3600000); ":"; padZ 2 (msInDay / 60000 mod 60); ":";
                    padZ 2 (msInDay / 1000 mod 60); "."; padZ 3 (msInDay mod 1000); "Z"].

Definition toISOString (d : DateObj) : JS string :=
  match date_value d with
  | Some t => ret (isoString t)
  | None => throw "Invalid time value"
  end.

(* ---------------------------------------------------------------------------
   buildObsDateSearchValues (frontend.js, lines 264-294)
   --------------------------------------------------------------------------- *)

Definition lickNoonSuffix : string := " 12:00:00-0800".

(** The closing [if (startDate.getTime() > endDate.getTime()) ...]. *)
Definition isoPair (startDate endDate : DateObj) : JS (list string) :=
  if gtTime (getTime startDate) (getTime endDate) then
    e <- toISOString endDate ;; s <- toISOString startDate ;; ret [e; s]
  else
    s <- toISOString startDate ;; e <- toISOString endDate ;; ret [s; e].

Definition buildObsDateSearchValues (dateSearchValues : list string) : JS (list string) :=
  match dateSearchValues with
  | [v] =>
      startDate <- newDateFromString (String.append v lickNoonSuffix) ;;
      endDate <- newDateFromTime (addTime (getTime startDate) 86399999) ;;
      isoPair startDate endDate
  | [v1; v2] =>
      startDate <- newDateFromString (String.append v1 lickNoonSuffix) ;;
      endDate0 <- newDateFromString (String.append v2 lickNoonSuffix) ;;
      endDate <- (if looseEqObj startDate endDate0
                  then newDateFromTime (addTime (getTime startDate) 86399999)
                  else ret endDate0) ;;
      isoPair startDate endDate
  | _ => ret dateSearchValues
  end.

(** The time value of [new Date(d + " 12:00:00-0800")], noon PST on the
    date [d] ([None] when the string is not a date). *)
Definition lickNoon (d : string) : option Z :=
  match parseDateTime (String.append d lickNoonSuffix) with
  | Some t => timeClip t
  | None => None
  end.

(* ---------------------------------------------------------------------------
   The query parameter Map
   --------------------------------------------------------------------------- *)

(** The values [buildQueryParams] stores: [{operator, values}] objects for
    indexed fields, arrays, strings and numbers. *)
Inductive QValue : Type :=
| QSearch (operator : string) (values : list string)
| QList (values : list string)
| QStr (s : string)
| QNum (n : Z).

(** A JavaScript [Map], in insertion order. *)
Definition QMap : Type := list (string * QValue).

(** [Map.prototype.get]. *)
Fixpoint mapGet (k : string) (m : QMap) : option QValue :=
  match m with
  | [] => None
  | (k', v) :: rest => if String.eqb k k' then Some v else mapGet k rest
  end.

(** [Map.prototype.set]: an existing key keeps its place, a new key goes last. *)
Fixpoint mapSet (k : string) (v : QValue) (m : QMap) : QMap :=
  match m with
  | [] => [(k, v)]
  | (k', v') :: rest => if String.eqb k k' then (k, v) :: rest else (k', v') :: mapSet k v rest
  end.

(** The parts of [config.json] the builder reads. *)
Record Config := {
  searchFields : list string;                 (* config.searchFields *)
  searchArgs : string -> nat;                 (* config.searchArgs[field] *)
  instrumentCategory : string -> option bool; (* config.instruments[v].category; None: no entry *)
  defaultPageSize : string;                   (* config.defaults["page_size"] *)
  backendURLBase : string                     (* config.backendURLBase *)
}.

(** The state of the search form. *)
Record Form := {
  queryBy : string -> option bool;            (* #query_by_<field>.checked; None: no element *)
  searchOperator : string -> option string;   (* #search_operator_<field>.value *)
  searchCase : string -> option bool;         (* #search_case_<field>.checked *)
  searchValue : string -> nat -> option string; (* #search_value_<field>_<i>.value *)
  instrumentBoxes : list (string * bool);     (* input[id^='instrument_']: value, checked *)
  countOnly : bool;                           (* #id_count_0.checked *)
  pageSizeValue : string;                     (* #id_page_size.value *)
  coordFormatValue : string;                  (* #id_coord_format.value *)
  sortFieldsValue : string;                   (* #id_sort_fields.value *)
  sortDirValue : string;                      (* #id_sort_dir.value *)
  resultBoxes : list (string * bool)          (* input[id$='_result']: value, checked *)
}.

(** The messages of the TypeErrors a missing element or configuration entry raises. *)
Definition nullChecked : string := "Cannot read properties of null (reading 'checked')".
Definition undefinedCategory : string :=
  "Cannot read properties of undefined (reading 'category')".

(** The values [search_value_<field>_1 .. _<searchArgs>] that exist and are
    not empty, in order. *)
Definition collectSearchValues (form : Form) (field : string) (args : nat) : list string :=
  flat_map (fun i => match searchValue form field i with
                     | Some v => if String.eqb v "" then [] else [v]
                     | None => []
                     end)
           (seq 1 args).

(** The [{operator, values}] entry of one indexed field, [None] when its
    checkbox is not checked. *)
Definition searchFieldEntry (cfg : Config) (form : Form) (field : string) : JS (option QValue) :=
  match queryBy form field with
  | None => throw nullChecked
  | Some false => ret None
  | Some true =>
      let op0 := match searchOperator form field with Some o => o | None => "in" end in
      let op := match searchCase form field with
                | Some false => String.append op0 "i"
                | _ => op0
                end in
      let searchValues := collectSearchValues form field (searchArgs cfg field) in
      if String.eqb field "obs_date" then
        dateValues <- buildObsDateSearchValues searchValues ;;
        ret (Some (QSearch (if Nat.eqb (List.length dateValues) 2 then "in" else "eq") dateValues))
      else ret (Some (QSearch op searchValues))
  end.

(** [for (const field of config.searchFields) ...]. *)
Fixpoint addSearchFields (cfg : Config) (form : Form) (fields : list string) (qp : QMap)
  : JS QMap :=
  match fields with
  | [] => ret qp
  | field :: rest =>
      entry <- searchFieldEntry cfg form field ;;
      addSearchFields cfg form rest
        (match entry with Some v => mapSet field v qp | None => qp end)
  end.

(** The checked instruments whose [category] is [false], in order. *)
Fixpoint collectInstruments (cfg : Config) (boxes : list (string * bool)) : JS (list string) :=
  match boxes with
  | [] => ret []
  | (v, checked) :: rest =>
      if checked then
        match instrumentCategory cfg v with
        | None => throw undefinedCategory
        | Some false => others <- collectInstruments cfg rest ;; ret (v :: others)
        | Some true => collectInstruments cfg rest
        end
      else collectInstruments cfg rest
  end.

(** The [results] array: checked result fields, with "download_link" after
    the filename box whether or not it is checked. *)
Definition selectedResults (boxes : list (string * bool)) : list string :=
  flat_map (fun (box : string * bool) => let (v, checked) := box in
              (if checked then [v] else []) ++
              (if String.eqb v "filename" then ["download_link"] else []))
           boxes.

Definition resultOptions (cfg : Config) (form : Form) (qp : QMap) : QMap :=
  let page_size := if String.eqb (pageSizeValue form) "" then defaultPageSize cfg
                   else pageSizeValue form in
  let qp := mapSet "page_size" (QStr page_size) qp in
  let qp := mapSet "coord_format" (QStr (coordFormatValue form)) qp in
  let sortValue := if String.eqb (sortDirValue form) "-"
                   then String.append "-" (sortFieldsValue form) else sortFieldsValue form in
  let qp := mapSet "sort" (QStr sortValue) qp in
  let results := selectedResults (resultBoxes form) in
  let results := match results with
                 | [] => ["filename"; "download_link"; "obs_date"]
                 | _ => results
                 end in
  mapSet "results" (QList results) qp.

(** buildQueryParams (frontend.js, lines 152-261). *)
Definition buildQueryParams (cfg : Config) (form : Form) (page : QValue) : JS QMap :=
  qp <- addSearchFields cfg form (searchFields cfg) [] ;;
  instruments <- collectInstruments cfg (instrumentBoxes form) ;;
  let instrumentValues := "instrument" :: instruments in
  let qp := if (0 <? List.length instrumentValues)%nat
            then mapSet "filters" (QList instrumentValues) qp else qp in
  let qp := if countOnly form then mapSet "count" (QStr "") qp
            else resultOptions cfg form qp in
  ret (mapSet "page" page qp).

(** The keys [buildQueryParams] sets besides the indexed fields. *)
Definition optionKeys : list string :=
  ["filters"; "count"; "page_size"; "coord_format"; "sort"; "results"; "page"].

(** A configuration and a form to run the builder on. *)
Definition exampleConfig : Config := {|
  searchFields := ["object"; "obs_date"; "filename"; "coord"];
  searchArgs := fun f => if String.eqb f "obs_date" then 2%nat
                         else if String.eqb f "coord" then 2%nat else 1%nat;
  instrumentCategory := fun v => if String.eqb v "Kast" then Some true
                                 else if String.eqb v "Nickel" then None else Some false;
  defaultPageSize := "50";
  backendURLBase := "https://archive.example.org/archive/" |}.

Definition exampleForm : Form := {|
  queryBy := fun f => Some (String.eqb f "obs_date" || String.eqb f "object");
  searchOperator := fun f => if String.eqb f "coord" then None else Some "eq";
  searchCase := fun f => if String.eqb f "object" then Some false else None;
  searchValue := fun f i =>
    if String.eqb f "obs_date" then
      (if Nat.eqb i 1 then Some "2024-03-01" else Some "2024-02-28")
    else if String.eqb f "object" then Some "M31" else Some "";
  instrumentBoxes := [("Kast", true); ("Kast Blue", true); ("Kast Red", false)];
  countOnly := false;
  pageSizeValue := "";
  coordFormatValue := "decimal";
  sortFieldsValue := "obs_date";
  sortDirValue := "-";
  resultBoxes := [("filename", false); ("obs_date", true)] |}.

(* ---------------------------------------------------------------------------
   queryParamsToString (frontend.js, lines 297-314)
   --------------------------------------------------------------------------- *)

Definition hexDigit (d : nat) : ascii :=
  if Nat.ltb d 10 then ascii_of_nat (48 + d) else ascii_of_nat (55 + d).

(** The application/x-www-form-urlencoded byte serializer of
    [URLSearchParams] (each character taken as one byte). *)
Fixpoint formEncode (s : string) : string :=
  match s with
  | EmptyString => EmptyString
  | String c rest =>
      let b := nat_of_ascii c in
      if (Nat.eqb b 42 || Nat.eqb b 45 || Nat.eqb b 46 || Nat.eqb b 95
          || (Nat.leb 48 b && Nat.leb b 57) || (Nat.leb 65 b && Nat.leb b 90)
          || (Nat.leb 97 b && Nat.leb b 122))%bool
      then String c (formEncode rest)
      else if Nat.eqb b 32 then String "+" (formEncode rest)
      else String "%" (String (hexDigit (b / 16)) (String (hexDigit (b mod 16)) (formEncode rest)))
  end.

(** How each kind of value is written: arrays joined with commas, an
    [{operator, values}] object as the operator then the values, anything
    else as [String(value)]. *)
Definition qvalueString (v : QValue) : string :=
  match v with
  | QList vs => String.concat "," vs
  | QSearch op vs => String.append op (String.append "," (String.concat "," vs))
  | QStr s => s
  | QNum n => string_of_Z n
  end.

Definition queryParamsToString (cfg : Config) (qp : QMap) : string :=
  String.append (backendURLBase cfg)
    (String.append "data/?"
       (String.concat "&" (map (fun (kv : string * QValue) =>
                                  String.append (formEncode (fst kv))
                                    (String.append "=" (formEncode (qvalueString (snd kv)))))
                               qp))).

(* ---------------------------------------------------------------------------
   Query results and LickArchiveClient.runQuery (login_controls.js, 211-227)
   --------------------------------------------------------------------------- *)

(** One result: field name to value. *)
Definition Row : Type := list (string * string).

Fixpoint rowGet (k : string) (r : Row) : option string :=
  match r with
  | [] => None
  | (k', v) :: rest => if String.eqb k k' then Some v else rowGet k rest
  end.

(** A result page as [runQuery] returns it.  [qr_error]: [None] when there
    is no "error" key, [Some None] when it is null, [Some (Some m)] for the
    message [m]; [qr_results]: [None] when null. *)
Record QueryResult := {
  qr_error : option (option string);
  qr_count : Z;
  qr_next : option string;
  qr_previous : option string;
  qr_results : option (list Row)
}.

(** What [fetch(url)] gives. *)
Inductive FetchResponse : Type :=
| FetchRejected (error : string)      (* fetch rejects; the error as a string *)
| HttpStatus (status : Z)             (* a response that is not ok *)
| HttpBadJson (error : string)        (* ok, but response.json() rejects *)
| HttpJson (body : QueryResult).      (* ok, with this JSON body *)

Definition failedQuery (message : string) : QueryResult := {|
  qr_error := Some (Some message); qr_count := 0; qr_next := None;
  qr_previous := None; qr_results := None |}.

Definition runQuery (backend : string -> FetchResponse) (queryURL : string) : QueryResult :=
  match backend queryURL with
  | FetchRejected e | HttpBadJson e =>
      failedQuery (String.append "Failed to contact archive server: " e)
  | HttpStatus st =>
      failedQuery (String.append "Archive server returned error code " (string_of_Z st))
  | HttpJson body => body
  end.

(* ---------------------------------------------------------------------------
   downloadAll and submitDownload (frontend.js, lines 776-825)
   --------------------------------------------------------------------------- *)

(** [results["error"]] when ["error" in results && results["error"] != null]. *)
Definition pageError (r : QueryResult) : option string :=
  match qr_error r with Some (Some m) => Some m | _ => None end.

Definition notIterable : string := "results is not iterable".

(** How the do-while loop ends: with the accumulated filenames, with the
    message shown in the error banner, or still running when [fuel] runs
    out. *)
Inductive LoopOutcome : Type :=
| LoopDone (filenames : list (option string))
| LoopError (message : string)
| LoopRunning.

(** The do-while loop over the result pages; [result["filename"]] is
    [None] when the result has no filename. *)
Fixpoint downloadLoop (backend : string -> FetchResponse) (fuel : nat) (queryURL : string)
         (filenamesToDownload : list (option string)) : LoopOutcome :=
  match fuel with
  | O => LoopRunning
  | S fuel' =>
      let results := runQuery backend queryURL in
      match pageError results with
      | Some m => LoopError m
      | None =>
          match qr_results results with
          | None => LoopError notIterable
          | Some rows =>
              let acc := filenamesToDownload ++ map (rowGet "filename") rows in
              match qr_next results with
              | None => LoopDone acc
              | Some nextURL => downloadLoop backend fuel' nextURL acc
              end
          end
      end
  end.

(** What pressing "Download All" ends with. *)
Inductive DownloadOutcome : Type :=
| ShowedError (message : string)              (* errorSection.showErrorMessage *)
| NothingSubmitted                            (* submitDownload of an empty list *)
| SubmittedFiles (files : list (option string)) (* the download form is submitted *)
| StillDownloading.

Definition submitDownload (filenamesToDownload : list (option string)) : DownloadOutcome :=
  match filenamesToDownload with
  | [] => NothingSubmitted
  | _ => SubmittedFiles filenamesToDownload
  end.

(** The first URL: the form's query for page 1, with 1000 results a page
    and only the filename. *)
Definition downloadAllURL (cfg : Config) (qp : QMap) : string :=
  queryParamsToString cfg (mapSet "results" (QList ["filename"]) (mapSet "page_size" (QNum 1000) qp)).

Definition downloadAll (cfg : Config) (form : Form) (backend : string -> FetchResponse)
           (fuel : nat) (n : nat) : DownloadOutcome :=
  match buildQueryParams cfg form (QNum 1) n with
  | Thrown m => ShowedError m
  | Normal qp _ =>
      match downloadLoop backend fuel (downloadAllURL cfg qp) [] with
      | LoopError m => ShowedError m
      | LoopDone filenames => submitDownload filenames
      | LoopRunning => StillDownloading
      end
  end.

(* ---------------------------------------------------------------------------
   processResults (frontend.js, lines 340-417) and ErrorSection
   --------------------------------------------------------------------------- *)

(** The parts of the page the result handler writes. *)
Record Page := {
  errorBanner : list string;        (* the text nodes of #error_section *)
  tableHidden : bool;               (* #search_results_table.hidden *)
  tableRows : list Row;             (* the rows of its body *)
  countText : string;               (* #search_results_count (header) text *)
  countFooterHidden : bool;         (* #search_results_count_footer.hidden *)
  countFooterText : string;
  downloadButtonsHidden : bool;
  pageControlsHidden : bool;
  latestQueryResults : option (list Row)
}.

(** ErrorSection.showErrorMessage: [appendChild(new Text(errorMessage))]. *)
Definition showErrorMessage (message : string) (p : Page) : Page :=
  {| errorBanner := errorBanner p ++ [message]; tableHidden := tableHidden p;
     tableRows := tableRows p; countText := countText p;
     countFooterHidden := countFooterHidden p; countFooterText := countFooterText p;
     downloadButtonsHidden := downloadButtonsHidden p;
     pageControlsHidden := pageControlsHidden p; latestQueryResults := latestQueryResults p |}.

(** ErrorSection.clearErrorMessages. *)
Definition clearErrorMessages (p : Page) : Page :=
  {| errorBanner := []; tableHidden := tableHidden p;
     tableRows := tableRows p; countText := countText p;
     countFooterHidden := countFooterHidden p; countFooterText := countFooterText p;
     downloadButtonsHidden := downloadButtonsHidden p;
     pageControlsHidden := pageControlsHidden p; latestQueryResults := latestQueryResults p |}.

Definition showResultsCountOnly (count : Z) (p : Page) : Page :=
  {| errorBanner := errorBanner p; tableHidden := true;
     tableRows := tableRows p;
     countText := String.append "Number of results: " (string_of_Z count);
     countFooterHidden := true; countFooterText := countFooterText p;
     downloadButtonsHidden := true;
     pageControlsHidden := true; latestQueryResults := latestQueryResults p |}.

(** How the handler ends: normally, or with an exception after the page
    reached the given state. *)
Inductive Handled : Type :=
| Finished (p : Page)
| Aborted (p : Page) (message : string).

(** showResults: the table of results with its counts and page controls;
    a null [results] array throws in [buildResultRows]. *)
Definition showResults (qp : QMap) (json : QueryResult) (p : Page) : Handled :=
  match qr_results json with
  | None => Aborted p "Cannot read properties of null (reading 'length')"
  | Some rows =>
      let shown := String.concat "" ["Showing "; string_of_Z (Z.of_nat (List.length rows));
                                     " of "; string_of_Z (qr_count json); " results."] in
      Finished {| errorBanner := errorBanner p; tableHidden := false; tableRows := rows;
                  countText := shown; countFooterHidden := false; countFooterText := shown;
                  downloadButtonsHidden := false; pageControlsHidden := false;
                  latestQueryResults := latestQueryResults p |}
  end.

(** [new Text(x)] for the value of the "error" key. *)
Definition errorText (e : option string) : string :=
  match e with Some m => m | None => "null" end.

Definition mapHas (k : string) (m : QMap) : bool :=
  match mapGet k m with Some _ => true | None => false end.

Definition processResults (qp : QMap) (json : QueryResult) (p : Page) : Handled :=
  match qr_error json with
  | Some e => Finished (showErrorMessage (errorText e) (showResultsCountOnly 0 p))
  | None =>
      let p := clearErrorMessages p in
      if (qr_count json =? 0) || mapHas "count" qp then
        Finished (showResultsCountOnly (qr_count json) p)
      else
        let p := {| errorBanner := errorBanner p; tableHidden := tableHidden p;
                    tableRows := tableRows p; countText := countText p;
                    countFooterHidden := countFooterHidden p;
                    countFooterText := countFooterText p;
                    downloadButtonsHidden := downloadButtonsHidden p;
                    pageControlsHidden := pageControlsHidden p;
                    latestQueryResults := qr_results json |} in
        showResults qp json p
  end.

(** The query [exampleForm] gives for page 1. *)
Definition exampleQuery : QMap :=
  [("object", QSearch "eqi" ["M31"]);
   ("obs_date", QSearch "in" ["2024-02-28T20:00:00.000Z"; "2024-03-01T20:00:00.000Z"]);
   ("filters", QList ["instrument"; "Kast Blue"]);
   ("page_size", QStr "50"); ("coord_format", QStr "decimal");
   ("sort", QStr "-obs_date"); ("results", QList ["download_link"; "obs_date"]);
   ("page", QNum 1)].

Definition examplePage2URL : string := "https://archive.example.org/archive/data/?page=2".

(** A backend with two result pages for [exampleForm]. *)
Definition exampleBackend (url : string) : FetchResponse :=
  if String.eqb url (downloadAllURL exampleConfig exampleQuery)
  then HttpJson {| qr_error := None; qr_count := 3; qr_previous := None;
                   qr_next := Some examplePage2URL;
                   qr_results := Some [[("filename", "a.fits")]; [("filename", "b.fits")]] |}
  else if String.eqb url examplePage2URL
  then HttpJson {| qr_error := None; qr_count := 3; qr_previous := None; qr_next := None;
                   qr_results := Some [[("filename", "c.fits")]] |}
  else HttpStatus 404.

Definition examplePages : list QueryResult :=
  [runQuery exampleBackend (downloadAllURL exampleConfig exampleQuery);
   runQuery exampleBackend examplePage2URL].

(** A result page carrying an error, and a page state to show it on. *)
Definition exampleErrorResult : QueryResult := failedQuery "Archive server returned error code 500".

Definition examplePage : Page := {|
  errorBanner := []; tableHidden := false; tableRows := [[("filename", "a.fits")]];
  countText := "Showing 1 of 1 results."; countFooterHidden := false;
  countFooterText := "Showing 1 of 1 results."; downloadButtonsHidden := false;
  pageControlsHidden := false; latestQueryResults := Some [[("filename", "a.fits")]] |}.

(* ---------------------------------------------------------------------------
   Predicates the properties are stated with
   --------------------------------------------------------------------------- *)

(** What a finished query holds at an indexed field: a [{operator, values}]
    entry when its checkbox is checked, nothing otherwise. *)
Definition fieldInQuery (form : Form) (f : string) (qp : QMap) : Prop :=
  match queryBy form f with
  | Some true => exists op vs, mapGet f qp = Some (QSearch op vs)
  | _ => mapGet f qp = None
  end.

(** The values of the checked boxes whose instrument has [category: false],
    in document order. *)
Definition checkedNonCategory (cfg : Config) (boxes : list (string * bool)) : list string :=
  map fst (filter (fun (box : string * bool) =>
                     snd box && match instrumentCategory cfg (fst box) with
                                | Some false => true
                                | _ => false
                                end) boxes).

(** [visits backend url pages]: starting at [url] and following each
    page's [next] link, the backend returns [pages], the last of which has
    a null [next]. *)
Inductive visits (backend : string -> FetchResponse) : string -> list QueryResult -> Prop :=
| visits_last url :
    qr_next (runQuery backend url) = None ->
    visits backend url [runQuery backend url]
| visits_next url nextURL pages :
    qr_next (runQuery backend url) = Some nextURL ->
    visits backend nextURL pages ->
    visits backend url (runQuery backend url :: pages).

(** A page with no error and a results array. *)
Definition okPage (r : QueryResult) : Prop := pageError r = None /\ qr_results r <> None.

Definition pageFilenames (r : QueryResult) : list (option string) :=
  match qr_results r with Some rows => map (rowGet "filename") rows | None => [] end.

(* ---------------------------------------------------------------------------
   The page controls (frontend.js, lines 623-685)
   --------------------------------------------------------------------------- *)

(** [Number(s)] on the decimal strings [String(n)] produces ([None] is NaN). *)
Definition numberOfString (s : string) : option Z :=
  match s with
  | EmptyString => Some 0
  | String c rest =>
      if Ascii.eqb c "-" then option_map Z.opp (parseDigits rest) else parseDigits s
  end.

(** [Math.ceil(count / page_size)] for a positive page size. *)
Definition ceilDiv (a b : Z) : Z := - ((- a) / b).

(** The children of a page-control span. *)
Inductive PageControl : Type :=
| PageButton (text : string) (pageValue : option string)  (* [None]: disabled *)
| EllipsisText.

(** The page buttons between "<" and ">" ([page == currentPage] compares
    the number of the page string with the current page). *)
Definition pageButton (currentPage : Z) (page : string) : PageControl :=
  if String.eqb page ellipses then EllipsisText
  else if match numberOfString page with Some k => k =? currentPage | None => false end
  then PageButton page None
  else PageButton page (Some page).

(** buildPageControls (frontend.js, lines 623-669), for the page size and
    page of the query. *)
Definition buildPageControls (pageSize currentPage : Z) (json : QueryResult) : list PageControl :=
  let totalPages := ceilDiv (qr_count json) pageSize in
  let prevPageValue :=
    if (currentPage - 1 <? 1) || match qr_previous json with None => true | Some _ => false end
    then None else Some (currentPage - 1) in
  let nextPageValue :=
    if (match prevPageValue with Some v => v | None => 0 end >? totalPages)
       || match qr_next json with None => true | Some _ => false end
    then None else Some (currentPage + 1) in
  PageButton "<" (option_map string_of_Z prevPageValue)
  :: map (pageButton currentPage) (determinePages currentPage totalPages 10 2)
  ++ [PageButton ">" (option_map string_of_Z nextPageValue)].

Definition disabledButton (c : PageControl) : bool :=
  match c with PageButton _ None => true | _ => false end.

(* ---------------------------------------------------------------------------
   The results table: its columns and its row selection (frontend.js, lines 423-441 and 563-620)
   --------------------------------------------------------------------------- *)

(** [Array.prototype.includes] on an array of strings. *)
Definition includes (xs : list string) (x : string) : bool := existsb (String.eqb x) xs.

(** The columns of the results table for [config.resultFieldOrder] and the
    query's "results" array. *)
Definition getResultColsInDisplayOrder (resultFieldOrder results : list string) : list string :=
  filter (fun field => includes results field) resultFieldOrder
  ++ filter (fun field => negb (includes resultFieldOrder field)
                          && negb (String.eqb field "download_link")) results.

(* The row selection state (frontend.js, lines 324-326 and 563-620) *)

(** The check boxes of the results table and the counter kept beside them. *)
Record Selection := {
  rowChecks : list bool;        (* resultCheckboxes[i].checked *)
  numRowsSelected : Z;
  hdrChecked : bool;            (* resultHdrCheckbox.checked *)
  hdrIndeterminate : bool;      (* resultHdrCheckbox.indeterminate *)
  selectedDisabled : bool       (* downloadSelectedButtons[i].disabled, for every i *)
}.

(** [rowSelected], with [event.target.checked] as the clicked box's new state. *)
Definition rowSelected (targetChecked : bool) (st : Selection) : Selection :=
  let n := Z.of_nat (List.length (rowChecks st)) in
  let k := if targetChecked then numRowsSelected st + 1 else numRowsSelected st - 1 in
  let k := if k <? 0 then 0 else if k >? n then n else k in
  {| rowChecks := rowChecks st; numRowsSelected := k; selectedDisabled := k =? 0;
     hdrChecked := if k =? 0 then false else if k =? n then true else false;
     hdrIndeterminate := if k =? 0 then false else if k =? n then false else true |}.

(** [selectResults], reading the header box it was called for. *)
Definition selectResults (st : Selection) : Selection :=
  let n := Z.of_nat (List.length (rowChecks st)) in
  let '(value, k) := if hdrIndeterminate st then (false, 0)
                     else if hdrChecked st then (true, n) else (false, 0) in
  {| rowChecks := map (fun _ => value) (rowChecks st); numRowsSelected := k;
     selectedDisabled := k =? 0;
     hdrChecked := hdrChecked st; hdrIndeterminate := hdrIndeterminate st |}.

(** [xs[i] = v] on an index inside the array. *)
Fixpoint setNth {A} (i : nat) (v : A) (xs : list A) : list A :=
  match xs, i with
  | [], _ => []
  | _ :: rest, O => v :: rest
  | x :: rest, S j => x :: setNth j v rest
  end.

(** A click on row [i]: the browser flips the box, then [rowSelected] runs. *)
Definition clickRow (i : nat) (st : Selection) : Selection :=
  match nth_error (rowChecks st) i with
  | Some b =>
      rowSelected (negb b)
        {| rowChecks := setNth i (negb b) (rowChecks st); numRowsSelected := numRowsSelected st;
           hdrChecked := hdrChecked st; hdrIndeterminate := hdrIndeterminate st;
           selectedDisabled := selectedDisabled st |}
  | None => st
  end.

(** A click on the header box: the browser flips it and clears its
    indeterminate state (the activation behaviour of a checkbox), then
    [selectResults] runs. *)
Definition clickHeader (st : Selection) : Selection :=
  selectResults {| rowChecks := rowChecks st; numRowsSelected := numRowsSelected st;
                   hdrChecked := negb (hdrChecked st); hdrIndeterminate := false;
                   selectedDisabled := selectedDisabled st |}.

(** The table [showResults] builds for [n] results: fresh unchecked row and
    header boxes, Download Selected disabled; the counter is not touched. *)
Definition newResultTable (n : nat) (st : Selection) : Selection :=
  {| rowChecks := repeat false n; numRowsSelected := numRowsSelected st;
     hdrChecked := false; hdrIndeterminate := false; selectedDisabled := true |}.

Definition countChecked (bs : list bool) : Z := Z.of_nat (count_occ Bool.bool_dec bs true).

(** The counter agrees with the boxes, and the buttons with the counter. *)
Definition selectionConsistent (st : Selection) : Prop :=
  numRowsSelected st = countChecked (rowChecks st)
  /\ selectedDisabled st = (numRowsSelected st =? 0).

(* ---------------------------------------------------------------------------
   Download Selected (frontend.js, lines 492-524 and 762-774)
   --------------------------------------------------------------------------- *)

(** [s.split(c)] for a one-character separator. *)
Fixpoint splitOn (c : ascii) (s : string) : list string :=
  match s with
  | EmptyString => [""]
  | String d rest =>
      if Ascii.eqb d c then "" :: splitOn c rest
      else match splitOn c rest with
           | x :: xs => String d x :: xs
           | [] => [String d ""]
           end
  end.

(** [xs[key]] on an array, for a property key: a canonical array index
    selects an element, any other key gives [undefined] ([None]). *)
Definition arrayIndex {A} (xs : list A) (key : string) : option A :=
  match parseDigits key with
  | Some k => if String.eqb (string_of_nonneg k) key then nth_error xs (Z.to_nat k) else None
  | None => None
  end.

(** The id [buildResultRows] gives the check box of result [i]. *)
Definition resultCheckboxId (i : nat) : string :=
  String.append "search_results_select_" (string_of_Z (Z.of_nat i)).

(** The check boxes of a results table of [List.length checks] rows, in order. *)
Definition resultCheckboxes (checks : list bool) : list (string * bool) :=
  combine (map resultCheckboxId (seq 0 (List.length checks))) checks.

(** The loop of [downloadSelected] (frontend.js, lines 762-774) over
    [resultCheckboxes] (id, checked); [None]: a TypeError (the index names
    no result, or [latestQueryResults] is null). *)
Fixpoint selectedFilenames (boxes : list (string * bool)) (latestQueryResults : option (list Row))
  : option (list (option string)) :=
  match boxes with
  | [] => Some []
  | (id, checked) :: rest =>
      if checked then
        let id_parts := splitOn "_" id in
        let idx := last id_parts "" in
        match latestQueryResults with
        | None => None
        | Some rows =>
            match arrayIndex rows idx with
            | None => None
            | Some result =>
                match selectedFilenames rest latestQueryResults with
                | Some others => Some (rowGet "filename" result :: others)
                | None => None
                end
            end
        end
      else selectedFilenames rest latestQueryResults
  end.

Definition downloadSelected (boxes : list (string * bool)) (latestQueryResults : option (list Row))
  : option DownloadOutcome :=
  match selectedFilenames boxes latestQueryResults with
  | Some filenamesToDownload => Some (submitDownload filenamesToDownload)
  | None => None
  end.

(** The rows whose box is checked, in order. *)
Definition checkedRows (checks : list bool) (rows : list Row) : list Row :=
  map snd (filter fst (combine checks rows)).

Fixpoint noChar (c : ascii) (s : string) : bool :=
  match s with
  | EmptyString => true
  | String d rest => negb (Ascii.eqb d c) && noChar c rest
  end.

(* ---------------------------------------------------------------------------
   Reading a query string back (application/x-www-form-urlencoded)
   --------------------------------------------------------------------------- *)

(** The value of a hexadecimal digit (either case). *)
Definition hexValue (c : ascii) : option nat :=
  let b := nat_of_ascii c in
  if Nat.leb 48 b && Nat.leb b 57 then Some (b - 48)%nat
  else if Nat.leb 65 b && Nat.leb b 70 then Some (b - 55)%nat
  else if Nat.leb 97 b && Nat.leb b 102 then Some (b - 87)%nat
  else None.

(** Decoding of one name or value of application/x-www-form-urlencoded
    data: '+' is a space, '%' and two hexadecimal digits one byte. *)
Fixpoint formDecode (s : string) : string :=
  match s with
  | EmptyString => EmptyString
  | String c rest =>
      if Ascii.eqb c "+" then String " " (formDecode rest)
      else if Ascii.eqb c "%" then
        match rest with
        | String h1 (String h2 rest') =>
            match hexValue h1, hexValue h2 with
            | Some a, Some b => String (ascii_of_nat (a * 16 + b)%nat) (formDecode rest')
            | _, _ => String c (formDecode rest)
            end
        | _ => String c (formDecode rest)
        end
      else String c (formDecode rest)
  end.

(** The text before the first [c] and the text after it (all of [s] and
    nothing when there is no [c]). *)
Fixpoint breakAt (c : ascii) (s : string) : string * string :=
  match s with
  | EmptyString => ("", "")
  | String d rest =>
      if Ascii.eqb d c then ("", rest)
      else let (before, after) := breakAt c rest in (String d before, after)
  end.

(** The application/x-www-form-urlencoded parser: the name-value pairs of
    a query string. *)
Definition formParse (q : string) : list (string * string) :=
  map (fun piece => let (name, value) := breakAt "=" piece in (formDecode name, formDecode value))
      (filter (fun piece => negb (String.eqb piece "")) (splitOn "&" q)).

(** The pair [key=value] of one Map entry. *)
Definition queryPair (kv : string * QValue) : string :=
  String.append (formEncode (fst kv))
    (String.append "=" (formEncode (qvalueString (snd kv)))).

(* ---------------------------------------------------------------------------
   The instrument check boxes (frontend.js, lines 79-131)
   --------------------------------------------------------------------------- *)

(** An entry of [config.instruments]. *)
Record Instrument := {
  category : bool;
  parent : string;
  children : list string
}.

(** [config.instrumentOrder] and [config.instruments] ([None]: no entry). *)
Record InstrumentConfig := {
  instrumentOrder : list string;
  instruments : string -> option Instrument
}.

(** [Array.prototype.indexOf]: the first position, or -1. *)
Fixpoint indexOf (x : string) (xs : list string) : Z :=
  match xs with
  | [] => -1
  | y :: rest => if String.eqb x y then 0 else
                 let i := indexOf x rest in if i <? 0 then -1 else i + 1
  end.

(** [document.getElementById(`instrument_${i}`).checked]: the page has one
    box per position of [config.instrumentOrder]; [None] is a null element. *)
Definition getBox (boxes : list bool) (i : Z) : option bool :=
  if i <? 0 then None else nth_error boxes (Z.to_nat i).

Definition setBox (boxes : list bool) (i : Z) (v : bool) : list bool :=
  setNth (Z.to_nat i) v boxes.

Definition boxOf (cfg : InstrumentConfig) (boxes : list bool) (key : string) : option bool :=
  getBox boxes (indexOf key (instrumentOrder cfg)).

(** The loop of [selectInstrumentCategory]; [None]: a TypeError. *)
Fixpoint setChildren (order : list string) (checked : bool) (keys : list string)
         (boxes : list bool) : option (list bool) :=
  match keys with
  | [] => Some boxes
  | childKey :: rest =>
      let childIndex := indexOf childKey order in
      match getBox boxes childIndex with
      | None => None
      | Some _ => setChildren order checked rest (setBox boxes childIndex checked)
      end
  end.

(** selectInstrumentCategory, for the clicked box's value and new state. *)
Definition selectInstrumentCategory (cfg : InstrumentConfig) (value : string) (checked : bool)
           (boxes : list bool) : option (list bool) :=
  match instruments cfg value with
  | None => None
  | Some ins => setChildren (instrumentOrder cfg) checked (children ins) boxes
  end.

(** The sibling loop of [selectInstrumentChild]: the number of checked
    boxes; [None]: a TypeError. *)
Fixpoint countCheckedSiblings (order : list string) (siblings : list string) (boxes : list bool)
  : option nat :=
  match siblings with
  | [] => Some O
  | siblingKey :: rest =>
      match getBox boxes (indexOf siblingKey order), countCheckedSiblings order rest boxes with
      | Some b, Some k => Some (if b then S k else k)
      | _, _ => None
      end
  end.

(** selectInstrumentChild, for the clicked box's value. *)
Definition selectInstrumentChild (cfg : InstrumentConfig) (value : string) (boxes : list bool)
  : option (list bool) :=
  match instruments cfg value with
  | None => None
  | Some ins =>
      match instruments cfg (parent ins) with
      | None => None
      | Some par =>
          let siblings := children par in
          match countCheckedSiblings (instrumentOrder cfg) siblings boxes with
          | None => None
          | Some checkedSiblings =>
              let parentIndex := indexOf (parent ins) (instrumentOrder cfg) in
              match getBox boxes parentIndex with
              | None => None
              | Some _ => Some (setBox boxes parentIndex
                                  (Nat.eqb checkedSiblings (List.length siblings)))
              end
          end
      end
  end.

(* ---------------------------------------------------------------------------
   LickArchiveClient: getLoginStatus, login and logout (login_controls.js, lines 81-189)
   --------------------------------------------------------------------------- *)

(** A JavaScript value as these methods store it: null, undefined or a
    string. *)
Inductive JSVal : Type :=
| JNull
| JUndef
| JStr (s : string).

(** [v == null] *)
Definition looseNull (v : JSVal) : bool :=
  match v with JNull | JUndef => true | JStr _ => false end.

(** [String(v)], as [FormData.append] converts a value. *)
Definition jsString (v : JSVal) : string :=
  match v with JNull => "null" | JUndef => "undefined" | JStr s => s end.

(** The fields of the archive's login JSON; a missing one is [JUndef]. *)
Record LoginJson := {
  lj_logged_in : bool;
  lj_user : JSVal;
  lj_csrfmiddlewaretoken : JSVal
}.

(** What one [fetch] gives. *)
Inductive LoginResponse : Type :=
| LoginRejected (error : string)               (* fetch rejects, with this message *)
| LoginBadJson (status : Z) (error : string)   (* response.json() rejects *)
| LoginJsonBody (status : Z) (body : LoginJson).

Definition responseStatus (r : LoginResponse) : Z :=
  match r with
  | LoginRejected _ => 0
  | LoginBadJson st _ | LoginJsonBody st _ => st
  end.

(** [response.ok] *)
Definition responseOk (st : Z) : bool := (200 <=? st) && (st <=? 299).

(** A request: its method, its URL and its form fields. *)
Record Request := {
  req_method : string;
  req_url : string;
  req_body : list (string * string)
}.

Record Client := {
  loginUser : JSVal;
  apiCSRFToken : JSVal;
  errorMessage : JSVal;
  urlBase : string
}.

(** The client and the requests sent so far; the [i]-th request gets the
    response [net i]. *)
Record World := {
  client : Client;
  sent : list Request
}.

Section LoginClient.

Variable net : nat -> LoginResponse.

(** One step of an async method: a result, or an exception with its
    message. *)
Definition Step (A : Type) : Type := World -> (string + A) * World.

Definition sret {A} (a : A) : Step A := fun w => (inr a, w).

Definition sbind {A B} (m : Step A) (k : A -> Step B) : Step B :=
  fun w => match m w with
           | (inl e, w') => (inl e, w')
           | (inr a, w') => k a w'
           end.

Definition sthrow {A} (message : string) : Step A := fun w => (inl message, w).

Definition modify (f : Client -> Client) : Step unit :=
  fun w => (inr tt, {| client := f (client w); sent := sent w |}).

Definition get : Step Client := fun w => (inr (client w), w).

(** [await fetch(...)]: the response, or the rejection as an exception. *)
Definition fetch (r : Request) : Step LoginResponse :=
  fun w =>
    let resp := net (List.length (sent w)) in
    let w' := {| client := client w; sent := sent w ++ [r] |} in
    match resp with
    | LoginRejected e => (inl e, w')
    | _ => (inr resp, w')
    end.

(** [await response.json()] *)
Definition json (r : LoginResponse) : Step LoginJson :=
  match r with
  | LoginJsonBody _ body => sret body
  | LoginBadJson _ e | LoginRejected e => sthrow e
  end.

(** [try { body } catch (error) { handler(error.message) }] *)
Definition tryCatch (body : Step unit) (handler : string -> Step unit) : Step unit :=
  fun w => match body w with
           | (inl e, w') => handler e w'
           | (inr tt, w') => (inr tt, w')
           end.

Definition setState (user token err : JSVal) (c : Client) : Client :=
  {| loginUser := user; apiCSRFToken := token; errorMessage := err; urlBase := urlBase c |}.

Definition setToken (token : JSVal) (c : Client) : Client :=
  setState (loginUser c) token (errorMessage c) c.
Definition setError (err : JSVal) (c : Client) : Client :=
  setState (loginUser c) (apiCSRFToken c) err c.

Local Notation "x <~ m ;; k" := (sbind m (fun x => k)) (at level 61, m at next level, right associativity).

Definition getLoginStatus : Step unit :=
  tryCatch
    (c <~ get ;;
     response <~ fetch {| req_method := "GET"; req_url := String.append (urlBase c) "api/login";
                          req_body := [] |} ;;
     if negb (responseOk (responseStatus response)) then
       modify (setState JNull JNull
                 (JStr (String.append "Received status "
                          (String.append (string_of_Z (responseStatus response))
                             " from archive when checking login status."))))
     else
       loginStatus <~ json response ;;
       if lj_logged_in loginStatus then
         modify (setState (lj_user loginStatus) (lj_csrfmiddlewaretoken loginStatus) JNull)
       else
         modify (setState JNull (lj_csrfmiddlewaretoken loginStatus) JNull))
    (fun message => modify (setState JNull JNull (JStr message))).

(** [if (this.apiCSRFToken == null) { await this.getLoginStatus(); if
    (this.errorMessage != null) throw new Error(this.errorMessage) }] *)
Definition ensureToken : Step unit :=
  c <~ get ;;
  if looseNull (apiCSRFToken c) then
    _ <~ getLoginStatus ;;
    c' <~ get ;;
    if looseNull (errorMessage c') then sret tt else sthrow (jsString (errorMessage c'))
  else sret tt.

Definition login (username password : string) : Step unit :=
  tryCatch
    (_ <~ ensureToken ;;
     c <~ get ;;
     response <~ fetch {| req_method := "POST"; req_url := String.append (urlBase c) "api/login";
                          req_body := [("csrfmiddlewaretoken", jsString (apiCSRFToken c));
                                       ("username", username); ("password", password)] |} ;;
     if negb (responseOk (responseStatus response)) then
       modify (setState JNull JNull
                 (JStr (if responseStatus response =? 403 then "Login failed"
                        else String.append "Login failed, status code "
                               (string_of_Z (responseStatus response)))))
     else
       responseJson <~ json response ;;
       modify (setState (lj_user responseJson) (lj_csrfmiddlewaretoken responseJson) JNull))
    (fun message => modify (fun c => setToken JNull (setError (JStr message) c))).

Definition logout : Step unit :=
  tryCatch
    (_ <~ ensureToken ;;
     c <~ get ;;
     response <~ fetch {| req_method := "POST"; req_url := String.append (urlBase c) "api/logout";
                          req_body := [("csrfmiddlewaretoken", jsString (apiCSRFToken c))] |} ;;
     if negb (responseOk (responseStatus response)) then
       modify (fun c => setToken JNull
                          (setError (JStr (String.append "Failed to logout, status code "
                                             (string_of_Z (responseStatus response)))) c))
     else
       _ <~ json response ;;
       modify (setState JNull JNull JNull))
    (fun message => modify (fun c => setToken JNull (setError (JStr message) c))).

End LoginClient.

(** The world after running a method of the client. *)
Definition run (m : Step unit) (w : World) : World := snd (m w).

(* ---------------------------------------------------------------------------
   The theme (theme.js)
   --------------------------------------------------------------------------- *)

(** The stored theme, the theme style sheet and the theme button's text. *)
Record ThemeState := {
  storedTheme : option string;     (* localStorage.getItem("theme") *)
  themeHref : string;
  themeButtonText : string
}.

Definition darkCSS : string := "style/dark_theme.css".
Definition lightCSS : string := "style/light_theme.css".

(** setTheme; [localStorage.setItem] stores [String(theme)]. *)
Definition setTheme (theme : JSVal) (st : ThemeState) : ThemeState :=
  let isDark := match theme with JStr t => String.eqb t "dark" | _ => false end in
  {| storedTheme := Some (jsString theme);
     themeHref := if isDark then darkCSS else lightCSS;
     themeButtonText := if isDark then "Switch to Light Theme" else "Switch to Dark Theme" |}.

(** The stored theme, or [config.defaultTheme] when it is absent or empty.
    theme.js does not import [config]: [config] is [Some v] where the name
    resolves to an object whose [defaultTheme] is [v], and [None] where it
    is unbound and reading it throws a ReferenceError. *)
Definition currentTheme (config : option JSVal) (st : ThemeState) : option JSVal :=
  match storedTheme st with
  | Some t => if String.eqb t "" then config else Some (JStr t)
  | None => config
  end.

Definition initializeTheme (config : option JSVal) (st : ThemeState) : option ThemeState :=
  match currentTheme config st with
  | None => None
  | Some theme => Some (setTheme theme st)
  end.

Definition toggleTheme (config : option JSVal) (st : ThemeState) : option ThemeState :=
  match currentTheme config st with
  | None => None
  | Some theme =>
      if match theme with JStr t => String.eqb t "dark" | _ => false end
      then Some (setTheme (JStr "light") st)
      else Some (setTheme (JStr "dark") st)
  end.

(** The page shows the stored theme: the dark style sheet and "Switch to
    Light Theme" for "dark", the light ones for anything else. *)
Definition themeShown (st : ThemeState) : Prop :=
  exists t, storedTheme st = Some t
  /\ themeHref st = (if String.eqb t "dark" then darkCSS else lightCSS)
  /\ themeButtonText st = (if String.eqb t "dark" then "Switch to Light Theme"
                          else "Switch to Dark Theme").

(* ---------------------------------------------------------------------------
   Sample inputs of the page controls, the results table, the instruments, the client and the theme
   --------------------------------------------------------------------------- *)

(** Page 2 of a query with 120 results, 50 per page. *)
Definition exampleResultPage : QueryResult := {|
  qr_error := None; qr_count := 120;
  qr_next := Some "https://archive.example.org/archive/data/?page=3";
  qr_previous := Some "https://archive.example.org/archive/data/?page=1";
  qr_results := Some [[("filename", "a.fits")]; [("filename", "b.fits")]; [("filename", "c.fits")]] |}.

(** Three result rows, the first one checked. *)
Definition exampleSelection : Selection := {|
  rowChecks := [true; false; false]; numRowsSelected := 1; hdrChecked := false;
  hdrIndeterminate := true; selectedDisabled := false |}.

(** Kast, with its two arms, and the Hamilton spectrograph. *)
Definition exampleInstruments : InstrumentConfig := {|
  instrumentOrder := ["Kast"; "Kast Blue"; "Kast Red"; "Hamspec"];
  instruments := fun key =>
    if String.eqb key "Kast" then
      Some {| category := true; parent := ""; children := ["Kast Blue"; "Kast Red"] |}
    else if String.eqb key "Kast Blue" then
      Some {| category := false; parent := "Kast"; children := [] |}
    else if String.eqb key "Kast Red" then
      Some {| category := false; parent := "Kast"; children := [] |}
    else if String.eqb key "Hamspec" then
      Some {| category := false; parent := ""; children := [] |}
    else None |}.

(** A client with no token yet, and an archive answering with status 500. *)
Definition exampleWorld : World := {|
  client := {| loginUser := JNull; apiCSRFToken := JNull; errorMessage := JNull;
               urlBase := "https://archive.example.org/archive/" |};
  sent := [] |}.

Definition exampleServerError (i : nat) : LoginResponse :=
  LoginBadJson 500 "Unexpected token '<'".

Definition exampleThemeState : ThemeState := {|
  storedTheme := Some "light"; themeHref := lightCSS; themeButtonText := "Switch to Dark Theme" |}.

(* ===========================================================================
   Properties
   =========================================================================== *)

(* ---------------------------------------------------------------------------
   The embedding on sample inputs
   --------------------------------------------------------------------------- *)

Example determinePages_small : determinePages 1 3 10 2 = ["1"; "2"; "3"].
Proof. reflexivity. Qed.

Example determinePages_low : determinePages 2 100 12 2
  = ["1"; "2"; "3"; "4"; "5"; "6"; "7"; "8"; "9"; "10"; "..."; "100"].
Proof. reflexivity. Qed.

Example determinePages_mid : determinePages 50 100 12 2
  = ["1"; "..."; "45"; "46"; "47"; "48"; "49"; "50"; "51"; "52"; "..."; "100"].
Proof. reflexivity. Qed.

Example determinePages_tail : determinePages 99 100 12 2
  = ["1"; "..."; "92"; "93"; "94"; "95"; "96"; "97"; "98"; "99"; "100"].
Proof. reflexivity. Qed.

Example lickNoon_2024_01_05 :
  option_map isoString (lickNoon "2024-01-05") = Some "2024-01-05T20:00:00.000Z".
Proof. vm_compute. reflexivity. Qed.

Example buildObsDateSearchValues_one :
  buildObsDateSearchValues ["2024-01-05"] 0%nat
  = Normal ["2024-01-05T20:00:00.000Z"; "2024-01-06T19:59:59.999Z"] 2.
Proof. vm_compute. reflexivity. Qed.

Example buildObsDateSearchValues_swapped :
  buildObsDateSearchValues ["2024-03-01"; "2024-02-28"] 0%nat
  = Normal ["2024-02-28T20:00:00.000Z"; "2024-03-01T20:00:00.000Z"] 2.
Proof. vm_compute. reflexivity. Qed.

Example buildObsDateSearchValues_old :
  buildObsDateSearchValues ["1969-12-31"] 0%nat
  = Normal ["1969-12-31T20:00:00.000Z"; "1970-01-01T19:59:59.999Z"] 2.
Proof. vm_compute. reflexivity. Qed.

Example buildQueryParams_example :
  buildQueryParams exampleConfig exampleForm (QStr "1") 0%nat
  = Normal [("object", QSearch "eqi" ["M31"]);
            ("obs_date", QSearch "in" ["2024-02-28T20:00:00.000Z"; "2024-03-01T20:00:00.000Z"]);
            ("filters", QList ["instrument"; "Kast Blue"]);
            ("page_size", QStr "50"); ("coord_format", QStr "decimal");
            ("sort", QStr "-obs_date"); ("results", QList ["download_link"; "obs_date"]);
            ("page", QStr "1")] 2%nat.
Proof. vm_compute. reflexivity. Qed.

Example downloadAllURL_example :
  downloadAllURL exampleConfig [("obs_date", QSearch "in" ["2024-02-28T20:00:00.000Z"]);
                                ("page", QNum 1)]
  = "https://archive.example.org/archive/data/?obs_date=in%2C2024-02-28T20%3A00%3A00.000Z&page=1&page_size=1000&results=filename".
Proof. vm_compute. reflexivity. Qed.

Example downloadAll_example :
  downloadAll exampleConfig exampleForm exampleBackend 10 0
  = SubmittedFiles [Some "a.fits"; Some "b.fits"; Some "c.fits"].
Proof. vm_compute. reflexivity. Qed.

(* ---------------------------------------------------------------------------
   Page numbers are never the ellipsis
   --------------------------------------------------------------------------- *)

Lemma digits_aux_head (fuel : nat) : forall n acc,
  digits_aux fuel n acc = acc \/
  exists k rest, digits_aux fuel n acc = String (digit_char k) rest /\ 0 <= k < 10.
Proof.
  induction fuel as [|f IH]; intros n acc; simpl; [now left|].
  destruct (n =? 0); [now left|].
  destruct (IH (n / 10) (String (digit_char (n mod 10)) acc)) as [E | E].
  - right. rewrite E. exists (n mod 10), acc. split; [reflexivity|].
    apply Z.mod_pos_bound; lia.
  - right. exact E.
Qed.

Lemma digit_char_not_dot (k : Z) : 0 <= k < 10 -> digit_char k <> "."%char.
Proof.
  intros Hk E. unfold digit_char in E.
  apply (f_equal nat_of_ascii) in E.
  assert (Hk' : (Z.to_nat k < 10)%nat) by lia.
  rewrite nat_ascii_embedding in E by (apply Nat.lt_le_trans with 58%nat; lia).
  change (nat_of_ascii ".") with 46%nat in E. lia.
Qed.

Lemma string_of_nonneg_not_ellipses (n : Z) : string_of_nonneg n <> ellipses.
Proof.
  unfold string_of_nonneg, ellipses.
  destruct (n =? 0) eqn:En; [discriminate|].
  simpl. rewrite En.
  destruct (digits_aux_head (Z.to_nat (Z.log2 n)) (n / 10)
              (String (digit_char (n mod 10)) "")) as [E | (k & rest & E & Hk)];
    rewrite E; intro H; injection H as H.
  - apply (digit_char_not_dot (n mod 10)); [apply Z.mod_pos_bound; lia | exact H].
  - exact (digit_char_not_dot k Hk H).
Qed.

Lemma string_of_Z_not_ellipses (n : Z) : string_of_Z n <> ellipses.
Proof.
  unfold string_of_Z. destruct (n <? 0).
  - unfold ellipses. intro H. injection H as H _. discriminate H.
  - apply string_of_nonneg_not_ellipses.
Qed.

Lemma pages_not_ellipses (xs : list Z) : ~ In ellipses (map string_of_Z xs).
Proof.
  intro H. apply in_map_iff in H as (x & Hx & _).
  exact (string_of_Z_not_ellipses x Hx).
Qed.

(* ---------------------------------------------------------------------------
   Ranges
   --------------------------------------------------------------------------- *)

Lemma zseq_length (c : nat) : forall a, List.length (zseq a c) = c.
Proof. induction c as [|c IH]; intro a; simpl; [reflexivity | now rewrite IH]. Qed.

Lemma zrange_length (a b : Z) : List.length (zrange a b) = Z.to_nat (b - a + 1).
Proof. apply zseq_length. Qed.

Lemma zseq_last (c : nat) : forall a d, last (zseq a (S c)) d = a + Z.of_nat c.
Proof.
  induction c as [|c IH]; intros a d.
  - simpl. lia.
  - change (last (a :: (a + 1) :: zseq (a + 1 + 1) c) d = a + Z.of_nat (S c)).
    change (last ((a + 1) :: zseq (a + 1 + 1) c) d = a + Z.of_nat (S c)).
    change ((a + 1) :: zseq (a + 1 + 1) c) with (zseq (a + 1) (S c)).
    rewrite IH. lia.
Qed.

Lemma last_map {A B} (f : A -> B) (l : list A) (d : A) :
  last (map f l) (f d) = f (last l d).
Proof.
  induction l as [|x l IH]; [reflexivity|].
  destruct l as [|y l]; [reflexivity|]. exact IH.
Qed.

Lemma last_default {A} (l : list A) (d1 d2 : A) :
  l <> [] -> last l d1 = last l d2.
Proof.
  intro Hl. induction l as [|x l IH]; [contradiction|].
  destruct l as [|y l]; [reflexivity|]. apply IH. discriminate.
Qed.

Lemma last_map_zrange (f : Z -> string) (a b : Z) (d : string) :
  a <= b -> last (map f (zrange a b)) d = f b.
Proof.
  intro Hab. unfold zrange.
  destruct (Z.to_nat (b - a + 1)) as [|c] eqn:Ec; [lia|].
  rewrite (last_default _ d (f 0)) by discriminate.
  rewrite last_map, zseq_last. f_equal. lia.
Qed.

Lemma last_app_nonnil {A} (l1 l2 : list A) (d : A) :
  l2 <> [] -> last (l1 ++ l2) d = last l2 d.
Proof.
  intro H2. induction l1 as [|y l1 IH]; [reflexivity|].
  rewrite <- app_comm_cons. simpl. rewrite <- IH.
  destruct (l1 ++ l2) eqn:E; [|reflexivity].
  apply app_eq_nil in E as [_ E]. contradiction.
Qed.

Lemma map_zrange_nonnil (f : Z -> string) (a b : Z) :
  a <= b -> map f (zrange a b) <> [].
Proof.
  intros Hab E. apply (f_equal (@List.length string)) in E.
  rewrite length_map, zrange_length in E. simpl in E. lia.
Qed.

Lemma determinePages_shape (c t m s : Z) :
  determinePages c t m s =
  let '(startRange, endRange, needStart, needEnd) := pageRangePlan c t m s in
  "1" :: (if needStart then [ellipses] else [])
      ++ map string_of_Z (zrange startRange endRange)
      ++ (if needEnd then [ellipses; string_of_Z t] else []).
Proof. unfold determinePages. destruct (pageRangePlan c t m s) as [[[? ?] ?] ?]. reflexivity. Qed.

(* ---------------------------------------------------------------------------
   C1: the first and the last page
   --------------------------------------------------------------------------- *)

(** C1 (as stated, refuted): with [maxControls = 0], [surroundingControls = 0]
    and three pages, the page list is ["1"; "..."]: it does not end with
    "3".  This is the last regime, whose range starts at
    [totalPages - (maxControls - 3) + 1], past [totalPages] when
    [maxControls < 4]. *)
Lemma determinePages_C1_counterexample :
  ~ (forall currentPage totalPages maxControls surroundingControls,
       1 <= totalPages ->
       hd_error (determinePages currentPage totalPages maxControls surroundingControls) = Some "1"
       /\ (1 < totalPages ->
           last (determinePages currentPage totalPages maxControls surroundingControls) ""
           = string_of_Z totalPages)).
Proof.
  intro H. destruct (H 3 3 0 0 ltac:(lia)) as [_ Hlast].
  specialize (Hlast ltac:(lia)). vm_compute in Hlast. discriminate Hlast.
Qed.

(** C1 (amended): when there is at least one page and [maxControls >= 4]
    (the page controls use 10), the page list starts with "1" and, when
    there is more than one page, ends with [String(totalPages)]. *)
Theorem determinePages_first_and_last (currentPage totalPages maxControls surroundingControls : Z) :
  1 <= totalPages -> 4 <= maxControls ->
  hd_error (determinePages currentPage totalPages maxControls surroundingControls) = Some "1"
  /\ (1 < totalPages ->
      last (determinePages currentPage totalPages maxControls surroundingControls) ""
      = string_of_Z totalPages).
Proof.
  intros Ht Hm. rewrite determinePages_shape. unfold pageRangePlan.
  destruct (Z.gtb_spec totalPages (maxControls + 2)) as [Hbig | Hsmall].
  - destruct (Z.leb_spec currentPage (maxControls - (2 + surroundingControls))) as [Hlo | Hhi];
      [| destruct (Z.ltb_spec (currentPage + surroundingControls) totalPages) as [Hfar | Hnear]];
      (split; [reflexivity | intro Ht1]).
    + change ("1" :: ([] ++ map string_of_Z (zrange 2 (maxControls - 2))
                         ++ [ellipses; string_of_Z totalPages]))
        with ((["1"] ++ map string_of_Z (zrange 2 (maxControls - 2)))
                ++ [ellipses; string_of_Z totalPages]).
      rewrite last_app_nonnil by discriminate. reflexivity.
    + rewrite app_comm_cons, !app_assoc, last_app_nonnil by discriminate. reflexivity.
    + cbn [app]. rewrite app_nil_r.
      change ("1" :: ellipses :: ?l) with (["1"; ellipses] ++ l).
      rewrite last_app_nonnil by (apply map_zrange_nonnil; lia).
      apply last_map_zrange. lia.
  - split; [reflexivity | intro Ht1]. cbn [app]. rewrite app_nil_r.
    change ("1" :: ?l) with (["1"] ++ l).
    rewrite last_app_nonnil by (apply map_zrange_nonnil; lia).
    apply last_map_zrange. lia.
Qed.

(* ---------------------------------------------------------------------------
   C2: the number of controls
   --------------------------------------------------------------------------- *)

(** Once the pages do not all fit ([totalPages > maxControls + 2]), each of
    the three ellipsis regimes builds at most [maxControls] entries (for a
    current page in range and [0 <= surroundingControls <= maxControls - 4]). *)
Lemma determinePages_length_with_ellipses (currentPage totalPages maxControls surroundingControls : Z) :
  1 <= currentPage <= totalPages -> 0 <= surroundingControls ->
  surroundingControls + 4 <= maxControls ->
  totalPages > maxControls + 2 ->
  Z.of_nat (List.length (determinePages currentPage totalPages maxControls surroundingControls))
  <= maxControls.
Proof.
  intros Hc Hs Hm Hbig. rewrite determinePages_shape. unfold pageRangePlan.
  destruct (Z.gtb_spec totalPages (maxControls + 2)) as [_ | ]; [|lia].
  destruct (Z.leb_spec currentPage (maxControls - (2 + surroundingControls)));
    [| destruct (Z.ltb_spec (currentPage + surroundingControls) totalPages)];
    cbn [List.length app]; rewrite ?length_app, ?length_map, ?zrange_length;
    cbn [List.length]; rewrite !Nat2Z.inj_succ, Nat2Z.inj_add, Z2Nat.id by lia; lia.
Qed.

(** C2 (code bug): the real call [determinePages(page, totalPages, 10, 2)]
    with twelve pages lists all twelve pages, two more than [maxControls]:
    the list is left unabridged for [totalPages] up to [maxControls + 2]. *)
Theorem determinePages_twelve_pages_ten_controls :
  determinePages 1 12 10 2
  = ["1"; "2"; "3"; "4"; "5"; "6"; "7"; "8"; "9"; "10"; "11"; "12"]
  /\ List.length (determinePages 1 12 10 2) = 12%nat.
Proof. split; reflexivity. Qed.

(* ---------------------------------------------------------------------------
   C3: where the ellipses go
   --------------------------------------------------------------------------- *)

(** C3: when the pages do not all fit ([totalPages > maxControls + 2]):
    up to the changeover page [maxControls - surroundingControls - 2] the
    list holds exactly one ellipsis, just before the last page; past it the
    second entry is an ellipsis, and a second ellipsis stands just before
    the last page exactly when [currentPage + surroundingControls < totalPages]
    (otherwise no further ellipsis occurs). *)
Theorem determinePages_ellipses_placement (currentPage totalPages maxControls surroundingControls : Z) :
  totalPages > maxControls + 2 ->
  let pages := determinePages currentPage totalPages maxControls surroundingControls in
  (currentPage <= maxControls - surroundingControls - 2 ->
     exists front, pages = front ++ [ellipses; string_of_Z totalPages] /\ ~ In ellipses front)
  /\ (currentPage > maxControls - surroundingControls - 2 ->
     (currentPage + surroundingControls < totalPages ->
        exists mid, pages = "1" :: ellipses :: mid ++ [ellipses; string_of_Z totalPages]
                    /\ ~ In ellipses mid)
     /\ (~ currentPage + surroundingControls < totalPages ->
        exists rest, pages = "1" :: ellipses :: rest /\ ~ In ellipses rest)).
Proof.
  intros Hbig pages. subst pages. rewrite determinePages_shape. unfold pageRangePlan.
  destruct (Z.gtb_spec totalPages (maxControls + 2)) as [_ | ]; [|lia].
  split.
  - intro Hlo.
    destruct (Z.leb_spec currentPage (maxControls - (2 + surroundingControls))); [|lia].
    exists ("1" :: map string_of_Z (zrange 2 (maxControls - 2))). split; [reflexivity|].
    intros [E | E]; [discriminate E | exact (pages_not_ellipses _ E)].
  - intro Hhi.
    destruct (Z.leb_spec currentPage (maxControls - (2 + surroundingControls))); [lia|].
    split; intro Hfar.
    + destruct (Z.ltb_spec (currentPage + surroundingControls) totalPages); [|lia].
      eexists. split; [reflexivity | apply pages_not_ellipses].
    + destruct (Z.ltb_spec (currentPage + surroundingControls) totalPages); [lia|].
      eexists. split; [cbn [app]; rewrite app_nil_r; reflexivity | apply pages_not_ellipses].
Qed.

(* ---------------------------------------------------------------------------
   Parsed dates lie well inside the Date range
   --------------------------------------------------------------------------- *)

Lemma digits_value_bound (s : string) : forall acc v,
  digits_value s acc = Some v -> 0 <= acc ->
  0 <= v < (acc + 1) * 10 ^ Z.of_nat (String.length s).
Proof.
  induction s as [|c rest IH]; intros acc v H Hacc; cbn [digits_value] in H.
  - injection H as <-. simpl. lia.
  - destruct ((0 <=? Z.of_nat (nat_of_ascii c) - 48) && (Z.of_nat (nat_of_ascii c) - 48 <=? 9))
      eqn:Ek; [|discriminate].
    apply andb_true_iff in Ek as [Ek1 Ek2]. apply Z.leb_le in Ek1, Ek2.
    pose proof (IH _ _ H ltac:(lia)) as Hv.
    cbn [String.length]. rewrite Nat2Z.inj_succ, Z.pow_succ_r by lia.
    assert (0 < 10 ^ Z.of_nat (String.length rest)) by (apply Z.pow_pos_nonneg; lia).
    nia.
Qed.

Lemma substring_length_le (s : string) : forall n m,
  (String.length (substring n m s) <= m)%nat.
Proof.
  induction s as [|c rest IH]; intros [|n] [|m]; simpl; try lia.
  - specialize (IH 0%nat m). lia.
  - apply IH.
  - apply IH.
Qed.

Lemma field_bound (s : string) (start len : nat) (v : Z) :
  field s start len = Some v -> 0 <= v < 10 ^ Z.of_nat len.
Proof.
  unfold field, parseDigits. intro H.
  destruct (substring start len s) as [|c rest] eqn:E; [discriminate|].
  apply digits_value_bound in H; [|lia].
  pose proof (substring_length_le s start len) as Hl. rewrite E in Hl.
  assert (10 ^ Z.of_nat (String.length (String c rest)) <= 10 ^ Z.of_nat len)
    by (apply Z.pow_le_mono_r; lia).
  lia.
Qed.

Lemma offsetSign_cases (s : string) (sgn : Z) :
  offsetSign s = Some sgn -> sgn = -1 \/ sgn = 1.
Proof.
  unfold offsetSign. destruct (String.get 19 s) as [c|]; [|discriminate].
  destruct (Ascii.eqb c "-"); [intro H; injection H; lia|].
  destruct (Ascii.eqb c "+"); [intro H; injection H; lia | discriminate].
Qed.

Lemma parseDateTime_bound (s : string) (t : Z) :
  parseDateTime s = Some t -> Z.abs t <= 1000000000000000.
Proof.
  unfold parseDateTime. intro H.
  destruct (_ && _ && _ && _ && _ && _); [|discriminate].
  destruct (field s 0 4) as [y|] eqn:Ey; [|discriminate].
  destruct (field s 5 2) as [mo|]; [|discriminate].
  destruct (field s 8 2) as [d|] eqn:Ed; [|discriminate].
  destruct (field s 11 2) as [hh|] eqn:Eh; [|discriminate].
  destruct (field s 14 2) as [mi|] eqn:Emi; [|discriminate].
  destruct (field s 17 2) as [ss|] eqn:Ess; [|discriminate].
  destruct (offsetSign s) as [sgn|] eqn:Esg; [|discriminate].
  destruct (field s 20 2) as [oh|] eqn:Eoh; [|discriminate].
  destruct (field s 22 2) as [om|] eqn:Eom; [|discriminate].
  apply field_bound in Ey, Ed, Eh, Emi, Ess, Eoh, Eom.
  apply offsetSign_cases in Esg. cbn in Ey, Ed, Eh, Emi, Ess, Eoh, Eom.
  destruct ((1 <=? mo) && (mo <=? 12) && (1 <=? d) && (d <=? 31) && (hh <=? 24)
            && (mi <=? 59) && (ss <=? 59) && (oh <=? 23) && (om <=? 59)) eqn:Ec;
    [|discriminate].
  repeat rewrite andb_true_iff in Ec. repeat rewrite Z.leb_le in Ec.
  injection H as <-. unfold days_from_civil, msPerDay.
  clear - Ey Ed Eh Emi Ess Eoh Eom Ec Esg.
  destruct (mo <=? 2), (mo >? 2); Z.div_mod_to_equations; lia.
Qed.

Lemma lickNoon_bound (v : string) (t : Z) :
  lickNoon v = Some t -> Z.abs t <= 1000000000000000.
Proof.
  unfold lickNoon. destruct (parseDateTime _) eqn:E; [|discriminate].
  unfold timeClip. destruct (Z.abs z <=? maxTimeValue); [|discriminate].
  intro H. injection H as <-. exact (parseDateTime_bound _ _ E).
Qed.

Lemma timeClip_small (t : Z) : Z.abs t <= 8640000000000000 -> timeClip t = Some t.
Proof.
  intro H. unfold timeClip, maxTimeValue.
  destruct (Z.leb_spec (Z.abs t) 8640000000000000); [reflexivity | lia].
Qed.

Lemma newDateFromString_lickNoon (v : string) (t : Z) (n : nat) :
  lickNoon v = Some t ->
  newDateFromString (String.append v lickNoonSuffix) n
  = Normal {| date_id := n; date_value := Some t |} (S n).
Proof.
  unfold lickNoon, newDateFromString, newDateFromTime. intro H.
  destruct (parseDateTime _); [|discriminate]. rewrite H. reflexivity.
Qed.

(* ---------------------------------------------------------------------------
   C4: a single observation date
   --------------------------------------------------------------------------- *)

Lemma buildObsDateSearchValues_single (v : string) (t : Z) (n : nat) :
  lickNoon v = Some t ->
  buildObsDateSearchValues [v] n
  = Normal [isoString t; isoString (t + 86399999)] (S (S n)).
Proof.
  intro H. pose proof (lickNoon_bound v t H) as Hb.
  unfold buildObsDateSearchValues, bind.
  rewrite (newDateFromString_lickNoon v t n H).
  unfold newDateFromTime, getTime, addTime. cbn [date_value].
  rewrite (timeClip_small (t + 86399999)) by lia.
  unfold isoPair, getTime, gtTime, bind. cbn [date_value].
  destruct (Z.gtb_spec t (t + 86399999)); [lia|]. reflexivity.
Qed.

(** C4 (as stated, refuted): for the date "2024-01-05" the interval does
    not end 24 hours after its start, 2024-01-05 12:00 PST
    (1704484800000 ms). *)
Lemma buildObsDateSearchValues_not_24h :
  ~ (forall (d : string) (t : Z) (n : nat),
       lickNoon d = Some t ->
       exists n', buildObsDateSearchValues [d] n
                  = Normal [isoString t; isoString (t + msPerDay)] n').
Proof.
  intro H.
  destruct (H "2024-01-05" 1704484800000 0%nat ltac:(vm_compute; reflexivity)) as [n' E].
  vm_compute in E. discriminate E.
Qed.

(** C4 (amended): for every date value [d] (noon PST on [d] being the time
    value [t]), [buildObsDateSearchValues([d])] returns the ISO strings of
    [t] and of [t + 86399999] ms, one millisecond short of 24 hours later. *)
Theorem buildObsDateSearchValues_single_day (d : string) (t : Z) (n : nat) :
  lickNoon d = Some t ->
  exists n', buildObsDateSearchValues [d] n
             = Normal [isoString t; isoString (t + (msPerDay - 1))] n'.
Proof.
  intro H. exists (S (S n)). rewrite (buildObsDateSearchValues_single d t n H).
  reflexivity.
Qed.

(* ---------------------------------------------------------------------------
   C5 and C10: two observation dates
   --------------------------------------------------------------------------- *)

(** Two dates: the second [Date] object is never the first, so the dates
    are only put in ascending order. *)
Lemma buildObsDateSearchValues_pair (a b : string) (ta tb : Z) (n : nat) :
  lickNoon a = Some ta -> lickNoon b = Some tb ->
  buildObsDateSearchValues [a; b] n
  = Normal (if ta >? tb then [isoString tb; isoString ta] else [isoString ta; isoString tb])
           (S (S n)).
Proof.
  intros Ha Hb. unfold buildObsDateSearchValues, bind.
  rewrite (newDateFromString_lickNoon a ta n Ha), (newDateFromString_lickNoon b tb (S n) Hb).
  unfold looseEqObj. cbn [date_id]. rewrite (proj2 (Nat.eqb_neq n (S n))) by lia.
  unfold ret, isoPair, getTime, gtTime, bind. cbn [date_value].
  destruct (ta >? tb); reflexivity.
Qed.

(** C5: for two distinct dates [a] and [b], [buildObsDateSearchValues]
    returns the same ascending pair of ISO strings for [[a, b]] and for
    [[b, a]]: the earlier noon first, the later one second. *)
Theorem buildObsDateSearchValues_order_independent (a b : string) (ta tb : Z) (n : nat) :
  lickNoon a = Some ta -> lickNoon b = Some tb -> ta <> tb ->
  buildObsDateSearchValues [a; b] n
  = Normal [isoString (Z.min ta tb); isoString (Z.max ta tb)] (S (S n))
  /\ buildObsDateSearchValues [b; a] n
  = Normal [isoString (Z.min ta tb); isoString (Z.max ta tb)] (S (S n)).
Proof.
  intros Ha Hb Hne.
  rewrite (buildObsDateSearchValues_pair a b ta tb n Ha Hb),
          (buildObsDateSearchValues_pair b a tb ta n Hb Ha).
  destruct (Z.gtb_spec ta tb), (Z.gtb_spec tb ta); try lia.
  - rewrite Z.min_r, Z.max_l by lia. split; reflexivity.
  - rewrite Z.min_l, Z.max_r by lia. split; reflexivity.
Qed.

(** C10: for a date [d] entered twice, the two [Date] objects are never the
    same object, so [startDate == endDate] is false and
    [buildObsDateSearchValues([d, d])] returns [[t, t]], with [t] noon PST
    on [d]: a zero-length interval. *)
Theorem buildObsDateSearchValues_same_date (d : string) (t : Z) (n : nat) :
  lickNoon d = Some t ->
  (forall s e, newDateFromString (String.append d lickNoonSuffix) n = Normal s (S n) ->
               newDateFromString (String.append d lickNoonSuffix) (S n) = Normal e (S (S n)) ->
               looseEqObj s e = false)
  /\ buildObsDateSearchValues [d; d] n = Normal [isoString t; isoString t] (S (S n)).
Proof.
  intro H. split.
  - intros s e Hs He.
    rewrite (newDateFromString_lickNoon d t n H) in Hs.
    rewrite (newDateFromString_lickNoon d t (S n) H) in He.
    injection Hs as <-. injection He as <-.
    unfold looseEqObj. cbn [date_id]. apply Nat.eqb_neq. lia.
  - rewrite (buildObsDateSearchValues_pair d d t t n H H).
    rewrite Z.gtb_ltb, Z.ltb_irrefl. reflexivity.
Qed.

(* ---------------------------------------------------------------------------
   The query Map
   --------------------------------------------------------------------------- *)

Lemma mapGet_mapSet_eq (k : string) (v : QValue) (m : QMap) :
  mapGet k (mapSet k v m) = Some v.
Proof.
  induction m as [|[k' v'] rest IH]; simpl; [now rewrite String.eqb_refl|].
  destruct (String.eqb_spec k k'); simpl.
  - now rewrite String.eqb_refl.
  - destruct (String.eqb_spec k k'); [contradiction | exact IH].
Qed.

Lemma mapGet_mapSet_neq (k k2 : string) (v : QValue) (m : QMap) :
  k <> k2 -> mapGet k (mapSet k2 v m) = mapGet k m.
Proof.
  intro Hne. induction m as [|[k' v'] rest IH]; simpl.
  - destruct (String.eqb_spec k k2); [contradiction | reflexivity].
  - destruct (String.eqb_spec k2 k'); simpl.
    + subst k'. destruct (String.eqb_spec k k2); [contradiction | reflexivity].
    + destruct (String.eqb_spec k k'); [reflexivity | exact IH].
Qed.

(* ---------------------------------------------------------------------------
   C8: the indexed fields in the query
   --------------------------------------------------------------------------- *)

Lemma searchFieldEntry_spec (cfg : Config) (form : Form) (f : string) (n n' : nat)
      (e : option QValue) :
  searchFieldEntry cfg form f n = Normal e n' ->
  match queryBy form f with
  | Some true => exists op vs, e = Some (QSearch op vs)
  | Some false => e = None
  | None => False
  end.
Proof.
  unfold searchFieldEntry. destruct (queryBy form f) as [[|]|].
  - destruct (String.eqb f "obs_date").
    + unfold bind. destruct (buildObsDateSearchValues _ n); [|discriminate].
      intro H. injection H as <- _. eauto.
    + intro H. injection H as <- _. eauto.
  - intro H. injection H as <- _. reflexivity.
  - discriminate.
Qed.

Lemma addSearchFields_spec (cfg : Config) (form : Form) (fields : list string) :
  forall qp n qp' n',
  (forall f, In f fields -> queryBy form f <> Some true -> mapGet f qp = None) ->
  addSearchFields cfg form fields qp n = Normal qp' n' ->
  (forall f, In f fields -> fieldInQuery form f qp')
  /\ (forall f, ~ In f fields -> mapGet f qp' = mapGet f qp).
Proof.
  induction fields as [|f0 rest IH]; intros qp n qp' n' Hinv H.
  - simpl in H. injection H as <- _. split; [intros f [] | reflexivity].
  - simpl in H. unfold bind in H.
    destruct (searchFieldEntry cfg form f0 n) as [e n1|] eqn:Ee; [|discriminate].
    apply searchFieldEntry_spec in Ee.
    set (qp1 := match e with Some v => mapSet f0 v qp | None => qp end) in H.
    assert (Hqp1 : forall f, f <> f0 -> mapGet f qp1 = mapGet f qp).
    { intros f Hf. subst qp1. destruct e; [now apply mapGet_mapSet_neq | reflexivity]. }
    assert (Hf0 : fieldInQuery form f0 qp1).
    { unfold fieldInQuery. subst qp1.
      destruct (queryBy form f0) as [[|]|] eqn:Eq; [| | contradiction].
      - destruct Ee as (op & vs & ->). exists op, vs. apply mapGet_mapSet_eq.
      - subst e. apply Hinv; [left; reflexivity | rewrite Eq; discriminate]. }
    destruct (IH qp1 n1 qp' n') as [Hin Hout]; [|exact H|].
    { intros f Hf Hq. destruct (String.eqb_spec f f0) as [->|Hne].
      - unfold fieldInQuery in Hf0. destruct (queryBy form f0) as [[|]|];
          [contradiction | exact Hf0 | exact Hf0].
      - rewrite Hqp1 by exact Hne. apply Hinv; [right; exact Hf | exact Hq]. }
    split.
    + intros f [<- | Hf]; [|exact (Hin f Hf)].
      destruct (in_dec String.string_dec f0 rest) as [Hr | Hr]; [exact (Hin f0 Hr)|].
      unfold fieldInQuery in *. rewrite (Hout f0 Hr). exact Hf0.
    + intros f Hf. rewrite Hout by (intro; apply Hf; right; assumption).
      apply Hqp1. intro E. apply Hf. left. symmetry. exact E.
Qed.

Lemma resultOptions_other (cfg : Config) (form : Form) (qp : QMap) (k : string) :
  ~ In k optionKeys -> mapGet k (resultOptions cfg form qp) = mapGet k qp.
Proof.
  intro Hk. unfold resultOptions, optionKeys in *.
  repeat rewrite mapGet_mapSet_neq by (intro E; apply Hk; subst; simpl; tauto).
  reflexivity.
Qed.

(** After the indexed fields, [buildQueryParams] only sets the option keys. *)
Lemma buildQueryParams_other (cfg : Config) (form : Form) (page : QValue) (n : nat)
      (qp : QMap) (n' : nat) :
  buildQueryParams cfg form page n = Normal qp n' ->
  exists qp0 n0,
    addSearchFields cfg form (searchFields cfg) [] n = Normal qp0 n0
    /\ forall k, ~ In k optionKeys -> mapGet k qp = mapGet k qp0.
Proof.
  unfold buildQueryParams, bind.
  destruct (addSearchFields cfg form (searchFields cfg) [] n) as [qp0 n0|]; [|discriminate].
  destruct (collectInstruments cfg (instrumentBoxes form) n0) as [iv n1|]; [|discriminate].
  unfold ret. intro H. injection H as <- _. exists qp0, n0. split; [reflexivity|].
  intros k Hk.
  assert (Hpage : k <> "page") by (intro E; apply Hk; subst; simpl; tauto).
  assert (Hcount : k <> "count") by (intro E; apply Hk; subst; simpl; tauto).
  assert (Hfilters : k <> "filters") by (intro E; apply Hk; subst; simpl; tauto).
  rewrite mapGet_mapSet_neq by exact Hpage.
  destruct (countOnly form).
  - rewrite mapGet_mapSet_neq by exact Hcount. cbn [List.length Nat.ltb Nat.leb].
    apply mapGet_mapSet_neq. exact Hfilters.
  - rewrite resultOptions_other by exact Hk. cbn [List.length Nat.ltb Nat.leb].
    apply mapGet_mapSet_neq. exact Hfilters.
Qed.

(** C8: whenever [buildQueryParams] returns a query, each indexed search
    field (a name of [config.searchFields], none of which is one of the
    option keys) has a [{operator, values}] entry exactly when its
    [query_by_<field>] checkbox is checked, and no entry otherwise. *)
Theorem buildQueryParams_checked_fields (cfg : Config) (form : Form) (page : QValue)
        (n : nat) (qp : QMap) (n' : nat) :
  (forall f, In f (searchFields cfg) -> ~ In f optionKeys) ->
  buildQueryParams cfg form page n = Normal qp n' ->
  forall f, In f (searchFields cfg) ->
    ((exists op vs, mapGet f qp = Some (QSearch op vs)) <-> queryBy form f = Some true)
    /\ (queryBy form f <> Some true -> mapGet f qp = None).
Proof.
  intros Hkeys H f Hf.
  destruct (buildQueryParams_other cfg form page n qp n' H) as (qp0 & n0 & Hadd & Hother).
  destruct (addSearchFields_spec cfg form (searchFields cfg) [] n qp0 n0) as [Hin _];
    [intros; reflexivity | exact Hadd |].
  specialize (Hin f Hf). unfold fieldInQuery in Hin.
  rewrite (Hother f (Hkeys f Hf)).
  destruct (queryBy form f) as [[|]|].
  - split; [split; [reflexivity | intros _; exact Hin] | intro E; contradiction].
  - rewrite Hin. split; [split; [intros (op & vs & E); discriminate | discriminate] | reflexivity].
  - rewrite Hin. split; [split; [intros (op & vs & E); discriminate | discriminate] | reflexivity].
Qed.

(* ---------------------------------------------------------------------------
   C9: the instrument filter
   --------------------------------------------------------------------------- *)

Lemma collectInstruments_spec (cfg : Config) (boxes : list (string * bool)) :
  forall n iv n', collectInstruments cfg boxes n = Normal iv n' ->
  iv = checkedNonCategory cfg boxes.
Proof.
  induction boxes as [|[v checked] rest IH]; intros n iv n' H.
  - simpl in H. injection H as <- _. reflexivity.
  - unfold checkedNonCategory. cbn [collectInstruments filter fst snd] in *.
    destruct checked; cbn [andb].
    + destruct (instrumentCategory cfg v) as [[|]|]; [| |discriminate].
      * exact (IH n iv n' H).
      * unfold bind in H. destruct (collectInstruments cfg rest n) as [others n1|] eqn:E;
          [|discriminate].
        injection H as <- _. cbn [map fst]. f_equal. exact (IH n others n1 E).
    + exact (IH n iv n' H).
Qed.

(** C9: whenever [buildQueryParams] returns a query, it has a "filters"
    entry, ["instrument"] followed by the checked instruments that are not
    categories; with no instrument checked it is just ["instrument"]. *)
Theorem buildQueryParams_filters (cfg : Config) (form : Form) (page : QValue)
        (n : nat) (qp : QMap) (n' : nat) :
  buildQueryParams cfg form page n = Normal qp n' ->
  mapGet "filters" qp = Some (QList ("instrument" :: checkedNonCategory cfg (instrumentBoxes form))).
Proof.
  unfold buildQueryParams, bind.
  destruct (addSearchFields cfg form (searchFields cfg) [] n) as [qp0 n0|]; [|discriminate].
  destruct (collectInstruments cfg (instrumentBoxes form) n0) as [iv n1|] eqn:Ei;
    [|discriminate].
  apply collectInstruments_spec in Ei. subst iv.
  unfold ret. intro H. injection H as <- _.
  rewrite mapGet_mapSet_neq by discriminate.
  cbn [List.length Nat.ltb Nat.leb].
  destruct (countOnly form).
  - rewrite mapGet_mapSet_neq by discriminate. apply mapGet_mapSet_eq.
  - unfold resultOptions. repeat rewrite mapGet_mapSet_neq by discriminate.
    apply mapGet_mapSet_eq.
Qed.

(* ---------------------------------------------------------------------------
   C6: downloading every result
   --------------------------------------------------------------------------- *)

Lemma app_cons_eq_cons {A} (pre post rest : list A) (p x : A) :
  pre ++ p :: post = x :: rest ->
  (pre = [] /\ p = x /\ post = rest) \/ (exists pre', pre = x :: pre' /\ pre' ++ p :: post = rest).
Proof.
  destruct pre as [|y pre']; simpl; intro H; injection H as -> E.
  - left. auto.
  - right. eauto.
Qed.

Lemma downloadLoop_visits (backend : string -> FetchResponse) (url : string)
      (pages : list QueryResult) :
  visits backend url pages ->
  forall fuel acc, (List.length pages <= fuel)%nat ->
  (Forall okPage pages ->
   downloadLoop backend fuel url acc = LoopDone (acc ++ flat_map pageFilenames pages))
  /\ (forall pre p post m, pages = pre ++ p :: post -> Forall okPage pre ->
      pageError p = Some m -> downloadLoop backend fuel url acc = LoopError m).
Proof.
  induction 1 as [url Hnext | url nextURL pages Hnext Hvis IH];
    intros [|fuel] acc Hfuel; cbn [List.length] in Hfuel; try lia; cbn [downloadLoop].
  - split.
    + intro Hok. inversion Hok as [|? ? [Herr Hres] _]; subst.
      rewrite Herr. destruct (qr_results (runQuery backend url)) as [rows|] eqn:Er;
        [|contradiction].
      rewrite Hnext. cbn [flat_map]. unfold pageFilenames. rewrite Er, app_nil_r. reflexivity.
    + intros pre p post m Hsplit Hpre Herr.
      symmetry in Hsplit. apply app_cons_eq_cons in Hsplit as [(-> & -> & ->) | (pre' & -> & E)].
      * rewrite Herr. reflexivity.
      * destruct pre'; discriminate E.
  - destruct (IH fuel (acc ++ pageFilenames (runQuery backend url)) ltac:(lia)) as [IHok IHerr].
    split.
    + intro Hok. inversion Hok as [|? ? [Herr Hres] Hrest]; subst.
      rewrite Herr. destruct (qr_results (runQuery backend url)) as [rows|] eqn:Er;
        [|contradiction].
      assert (Hp : pageFilenames (runQuery backend url) = map (rowGet "filename") rows)
        by (unfold pageFilenames; rewrite Er; reflexivity).
      rewrite Hnext, <- Hp, (IHok Hrest). cbn [flat_map]. rewrite app_assoc. reflexivity.
    + intros pre p post m Hsplit Hpre Herr.
      symmetry in Hsplit. apply app_cons_eq_cons in Hsplit as [(-> & -> & ->) | (pre' & -> & E)].
      * rewrite Herr. reflexivity.
      * inversion Hpre as [|? ? [Herr1 Hres1] Hpre']; subst.
        rewrite Herr1. destruct (qr_results (runQuery backend url)) as [rows|] eqn:Er;
          [|contradiction].
        assert (Hp : pageFilenames (runQuery backend url) = map (rowGet "filename") rows)
          by (unfold pageFilenames; rewrite Er; reflexivity).
        rewrite Hnext, <- Hp. exact (IHerr pre' p post m eq_refl Hpre' Herr).
Qed.

(** C6: when the pages reached from the first query by following [next]
    links are [pages] (the last with a null [next]): if none carries an
    error, the loop accumulates the filenames of all their results, page by
    page, and hands that list to [submitDownload]; if one does, its error
    message is shown and nothing is submitted. *)
Theorem downloadAll_follows_next (cfg : Config) (form : Form) (backend : string -> FetchResponse)
        (n : nat) (qp : QMap) (n' : nat) (pages : list QueryResult) (fuel : nat) :
  buildQueryParams cfg form (QNum 1) n = Normal qp n' ->
  visits backend (downloadAllURL cfg qp) pages ->
  (List.length pages <= fuel)%nat ->
  (Forall okPage pages ->
     downloadLoop backend fuel (downloadAllURL cfg qp) [] = LoopDone (flat_map pageFilenames pages)
     /\ downloadAll cfg form backend fuel n = submitDownload (flat_map pageFilenames pages))
  /\ (forall pre p post m, pages = pre ++ p :: post -> Forall okPage pre ->
      pageError p = Some m -> downloadAll cfg form backend fuel n = ShowedError m).
Proof.
  intros Hq Hvis Hfuel.
  destruct (downloadLoop_visits backend _ pages Hvis fuel [] Hfuel) as [Hok Herr].
  unfold downloadAll. rewrite Hq. split.
  - intro Hall. rewrite (Hok Hall). split; reflexivity.
  - intros pre p post m Hsplit Hpre Hm. rewrite (Herr pre p post m Hsplit Hpre Hm). reflexivity.
Qed.

(* ---------------------------------------------------------------------------
   C7: error payloads
   --------------------------------------------------------------------------- *)

(** C7: for a result object with an "error" key holding the message [m],
    [processResults] appends [m] itself to the error banner, shows the
    count 0 and hides the results table and page controls; for a result
    object without an "error" key it leaves the error banner empty. *)
Theorem processResults_error_banner (qp : QMap) (json : QueryResult) (p : Page) :
  (forall m, qr_error json = Some (Some m) ->
     exists p', processResults qp json p = Finished p'
                /\ errorBanner p' = errorBanner p ++ [m]
                /\ countText p' = "Number of results: 0"
                /\ tableHidden p' = true /\ countFooterHidden p' = true
                /\ pageControlsHidden p' = true)
  /\ (qr_error json = None ->
      match processResults qp json p with
      | Finished p' | Aborted p' _ => errorBanner p' = []
      end).
Proof.
  split.
  - intros m Hm. unfold processResults. rewrite Hm.
    eexists. split; [reflexivity|]. repeat split.
  - intro Hn. unfold processResults. rewrite Hn.
    destruct ((qr_count json =? 0) || mapHas "count" qp); [reflexivity|].
    unfold showResults. destruct (qr_results json); reflexivity.
Qed.

(* ---------------------------------------------------------------------------
   The page list and the page controls
   --------------------------------------------------------------------------- *)

Lemma in_zseq (c : nat) : forall a x, In x (zseq a c) <-> a <= x < a + Z.of_nat c.
Proof.
  induction c as [|c IH]; intros a x; simpl; [lia|].
  rewrite IH. lia.
Qed.

Lemma in_zrange (a b x : Z) : In x (zrange a b) <-> a <= x <= b.
Proof. unfold zrange. rewrite in_zseq. lia. Qed.

Lemma sorted_zseq_app (c : nat) : forall a lo tail,
  lo < a ->
  (forall y, hd_error tail = Some y -> a + Z.of_nat c <= y) ->
  Sorted Z.lt tail ->
  Sorted Z.lt (lo :: zseq a c ++ tail).
Proof.
  induction c as [|c IH]; intros a lo tail Hlo Htail Hs; simpl.
  - constructor; [exact Hs|]. destruct tail as [|y tl]; constructor.
    specialize (Htail y eq_refl). lia.
  - constructor.
    + apply IH; [lia | intros y Hy; specialize (Htail y Hy); lia | exact Hs].
    + constructor. exact Hlo.
Qed.

Lemma string_of_Z_eqb_ellipses (x : Z) : String.eqb (string_of_Z x) ellipses = false.
Proof.
  destruct (String.eqb_spec (string_of_Z x) ellipses) as [E|_];
    [exfalso; exact (string_of_Z_not_ellipses x E) | reflexivity].
Qed.

Lemma filter_pages (xs : list Z) :
  filter (fun e => negb (String.eqb e ellipses)) (map string_of_Z xs) = map string_of_Z xs.
Proof.
  induction xs as [|x xs IH]; simpl; [reflexivity|].
  destruct (String.eqb_spec (string_of_Z x) ellipses) as [E|_];
    [exfalso; exact (string_of_Z_not_ellipses x E)|].
  simpl. f_equal. exact IH.
Qed.

Lemma determinePages_numbers_sorted (currentPage totalPages maxControls surroundingControls : Z) :
  1 <= totalPages -> 4 <= maxControls ->
  exists xs,
    filter (fun e => negb (String.eqb e ellipses))
      (determinePages currentPage totalPages maxControls surroundingControls)
    = map string_of_Z xs
    /\ Sorted Z.lt xs /\ Forall (fun x => 1 <= x <= totalPages) xs.
Proof.
  intros Ht Hm.
  set (c := currentPage). set (t := totalPages). set (m := maxControls).
  set (s := surroundingControls).
  unfold determinePages, pageRangePlan.
  destruct (t >? m + 2) eqn:E1; [destruct (c <=? m - (2 + s)) eqn:E2;
    [|destruct (c + s <? t) eqn:E3]|];
  rewrite ?Z.gtb_lt, ?Z.gtb_ltb, ?Z.leb_le, ?Z.leb_gt, ?Z.ltb_lt, ?Z.ltb_ge in *;
  change "1" with (string_of_Z 1);
  [ exists (1 :: zrange 2 (m - 2) ++ [t])
  | exists (1 :: zrange (c + s - (m - 4) + 1) (c + s) ++ [t])
  | exists (1 :: zrange (t - (m - 3) + 1) t ++ [])
  | exists (1 :: zrange 2 t ++ []) ];
  (split; [ cbn [app filter map]; rewrite ?filter_app; cbn [filter];
            rewrite ?string_of_Z_eqb_ellipses, ?String.eqb_refl; cbn [negb];
            rewrite ?filter_pages, ?map_app, ?app_nil_r; reflexivity |]).
  all: split; [ unfold zrange; apply sorted_zseq_app;
                [ lia | intros y Hy; simpl in Hy; try discriminate; injection Hy as <-; lia
                | repeat constructor ] |].
  all: apply Forall_cons; [lia|]; apply Forall_app; split;
       [ apply Forall_forall; intros x Hx; apply in_zrange in Hx; lia
       | repeat constructor; lia ].
Qed.

Lemma determinePages_surrounding_in (currentPage totalPages maxControls surroundingControls : Z)
        (p : Z) :
  1 <= currentPage <= totalPages -> 0 <= surroundingControls ->
  2 * surroundingControls + 5 <= maxControls ->
  1 <= p <= totalPages -> Z.abs (p - currentPage) <= surroundingControls ->
  In (string_of_Z p) (determinePages currentPage totalPages maxControls surroundingControls).
Proof.
  intros Hc Hs Hm Hp Hd.
  unfold determinePages, pageRangePlan.
  destruct (totalPages >? maxControls + 2) eqn:E1;
    [destruct (currentPage <=? maxControls - (2 + surroundingControls)) eqn:E2;
      [|destruct (currentPage + surroundingControls <? totalPages) eqn:E3]|];
  rewrite ?Z.gtb_lt, ?Z.leb_le, ?Z.leb_gt, ?Z.ltb_lt, ?Z.ltb_ge in *;
  (destruct (Z.eq_dec p 1) as [->|Hp1]; [left; reflexivity|]);
  cbn [app]; right; try right;
  apply in_app_iff; left; apply in_map; apply in_zrange; lia.
Qed.

Lemma digit_char_code (k : Z) : 0 <= k < 10 -> nat_of_ascii (digit_char k) = (48 + Z.to_nat k)%nat.
Proof.
  intro Hk. unfold digit_char.
  apply nat_ascii_embedding.
  assert (Hk' : (Z.to_nat k < 10)%nat) by lia.
  apply Nat.lt_le_trans with 58%nat; lia.
Qed.

Lemma digits_aux_value (f : nat) : forall n acc a,
  0 <= n < 2 ^ Z.of_nat f ->
  exists p, digits_value (digits_aux f n acc) a = digits_value acc (a * p + n).
Proof.
  induction f as [|f IH]; intros n acc a Hn.
  - simpl in Hn. assert (n = 0) as -> by lia. exists 1. simpl. f_equal. lia.
  - cbn [digits_aux]. destruct (Z.eqb_spec n 0) as [->|Hn0].
    + exists 1. f_equal. lia.
    + rewrite Nat2Z.inj_succ, Z.pow_succ_r in Hn by lia.
      destruct (IH (n / 10) (String (digit_char (n mod 10)) acc) a) as [p Hp].
      { split; [apply Z.div_pos; lia|]. apply Z.div_lt_upper_bound; lia. }
      exists (10 * p). rewrite Hp. cbn [digits_value].
      assert (Hm : 0 <= n mod 10 < 10) by (apply Z.mod_pos_bound; lia).
      rewrite digit_char_code by exact Hm.
      replace (Z.of_nat (48 + Z.to_nat (n mod 10)) - 48) with (n mod 10) by lia.
      replace ((0 <=? n mod 10) && (n mod 10 <=? 9)) with true
        by (symmetry; apply andb_true_intro; split; apply Z.leb_le; lia).
      f_equal. pose proof (Z.div_mod n 10). lia.
Qed.

Lemma parseDigits_string_of_nonneg (n : Z) :
  0 <= n -> parseDigits (string_of_nonneg n) = Some n.
Proof.
  intro Hn. unfold string_of_nonneg.
  destruct (Z.eqb_spec n 0) as [->|Hn0]; [reflexivity|].
  destruct (digits_aux_value (S (Z.to_nat (Z.log2 n))) n "" 0) as [p Hp].
  { split; [lia|]. rewrite Nat2Z.inj_succ, Z2Nat.id by (apply Z.log2_nonneg).
    apply Z.log2_spec. lia. }
  cbn [digits_aux] in *. rewrite (proj2 (Z.eqb_neq n 0) Hn0) in *.
  destruct (digits_aux_head (Z.to_nat (Z.log2 n)) (n / 10)
              (String (digit_char (n mod 10)) "")) as [E | (k & rest & E & Hk)];
    unfold parseDigits; rewrite E in *; rewrite Hp; simpl; f_equal; lia.
Qed.

Lemma string_of_nonneg_head (n : Z) :
  exists k rest, string_of_nonneg n = String (digit_char k) rest /\ 0 <= k < 10.
Proof.
  unfold string_of_nonneg. destruct (Z.eqb_spec n 0) as [->|Hn0].
  - exists 0, "". split; [reflexivity | lia].
  - cbn [digits_aux]. rewrite (proj2 (Z.eqb_neq n 0) Hn0).
    destruct (digits_aux_head (Z.to_nat (Z.log2 n)) (n / 10)
                (String (digit_char (n mod 10)) "")) as [E | (k & rest & E & Hk)];
      rewrite E.
    + exists (n mod 10), "". split; [reflexivity | apply Z.mod_pos_bound; lia].
    + exists k, rest. split; [reflexivity | exact Hk].
Qed.

Lemma digit_char_not_minus (k : Z) : 0 <= k < 10 -> Ascii.eqb (digit_char k) "-" = false.
Proof.
  intro Hk. apply Ascii.eqb_neq. intro E.
  apply (f_equal nat_of_ascii) in E. rewrite digit_char_code in E by exact Hk.
  change (nat_of_ascii "-") with 45%nat in E. lia.
Qed.

Lemma numberOfString_string_of_Z (k : Z) : numberOfString (string_of_Z k) = Some k.
Proof.
  unfold string_of_Z. destruct (Z.ltb_spec k 0) as [Hk|Hk].
  - cbn [numberOfString]. rewrite Ascii.eqb_refl.
    rewrite parseDigits_string_of_nonneg by lia. simpl. f_equal. lia.
  - destruct (string_of_nonneg_head k) as (d & rest & E & Hd).
    rewrite <- (parseDigits_string_of_nonneg k Hk). rewrite E.
    cbn [numberOfString]. rewrite digit_char_not_minus by exact Hd. reflexivity.
Qed.

Lemma ceilDiv_nonneg (a b : Z) : 0 <= a -> 0 < b -> 0 <= ceilDiv a b.
Proof.
  intros Ha Hb. unfold ceilDiv.
  assert (- a / b <= 0) by (apply Z.div_le_upper_bound; lia). lia.
Qed.

(** The "<" control comes first and is disabled exactly on page 1 (or
    before) or when there is no previous page; the ">" control comes last
    and, the test reading the previous page's number, is disabled exactly
    when there is no next page or when a previous page exists and lies past
    the last page. *)
Theorem buildPageControls_prev_next (pageSize currentPage : Z) (json : QueryResult) :
  0 <= qr_count json -> 0 < pageSize ->
  exists prevValue nextValue mid,
    buildPageControls pageSize currentPage json
      = PageButton "<" prevValue :: mid ++ [PageButton ">" nextValue]
    /\ (prevValue = None <-> currentPage <= 1 \/ qr_previous json = None)
    /\ (nextValue = None <->
          qr_next json = None
          \/ (qr_previous json <> None /\ 2 <= currentPage
              /\ ceilDiv (qr_count json) pageSize < currentPage - 1)).
Proof.
  intros Hc Hp. pose proof (ceilDiv_nonneg _ _ Hc Hp) as Ht.
  unfold buildPageControls.
  set (t := ceilDiv (qr_count json) pageSize) in *.
  eexists _, _, _. split; [reflexivity|].
  destruct (qr_previous json) as [pv|], (qr_next json) as [nv|];
    destruct (Z.ltb_spec (currentPage - 1) 1); cbn [orb option_map];
    try (destruct (Z.gtb_spec (currentPage - 1) t));
    try (destruct (Z.gtb_spec 0 t)); cbn [orb option_map];
    split; split; intro HH; try discriminate; try reflexivity;
    try (destruct HH as [HH|HH]); try discriminate; try lia;
    try (intuition (try discriminate; try lia)).
Qed.

Lemma filter_disabled_ellipses (cur : Z) (l : list string) :
  filter disabledButton (map (pageButton cur) l)
  = filter disabledButton (map (pageButton cur) (filter (fun e => negb (String.eqb e ellipses)) l)).
Proof.
  induction l as [|e l IH]; [reflexivity|].
  cbn [map filter]. destruct (String.eqb_spec e ellipses) as [->|Hne]; cbn [negb].
  - unfold pageButton at 1. rewrite String.eqb_refl. exact IH.
  - cbn [map filter]. rewrite IH. reflexivity.
Qed.

Lemma pageButton_number (cur x : Z) :
  pageButton cur (string_of_Z x)
  = if x =? cur then PageButton (string_of_Z x) None
    else PageButton (string_of_Z x) (Some (string_of_Z x)).
Proof.
  unfold pageButton. rewrite string_of_Z_eqb_ellipses, numberOfString_string_of_Z.
  reflexivity.
Qed.

Lemma filter_disabled_numbers (cur : Z) (xs : list Z) :
  filter disabledButton (map (pageButton cur) (map string_of_Z xs))
  = map (fun x => PageButton (string_of_Z x) None) (filter (fun x => x =? cur) xs).
Proof.
  induction xs as [|x xs IH]; [reflexivity|].
  cbn [map filter]. rewrite pageButton_number.
  destruct (x =? cur); cbn [filter disabledButton map]; rewrite IH; reflexivity.
Qed.

Lemma filter_eqb_sorted (cur : Z) (xs : list Z) :
  Sorted Z.lt xs -> In cur xs -> filter (fun x => x =? cur) xs = [cur].
Proof.
  intros Hs Hin. apply Sorted_StronglySorted in Hs; [|exact Z.lt_trans].
  induction Hs as [|x xs Hs IH Hall]; [destruct Hin|].
  cbn [filter]. destruct Hin as [->|Hin].
  - rewrite Z.eqb_refl. f_equal.
    assert (forall y, In y xs -> y <> cur).
    { intros y Hy. rewrite Forall_forall in Hall. specialize (Hall y Hy). lia. }
    clear -H. induction xs as [|y xs IHx]; [reflexivity|].
    cbn [filter]. destruct (Z.eqb_spec y cur) as [E|_];
      [exfalso; apply (H y); [left; reflexivity | exact E]|].
    apply IHx. intros z Hz. apply H. right. exact Hz.
  - destruct (Z.eqb_spec x cur) as [->|_]; [|exact (IH Hin)].
    rewrite Forall_forall in Hall. specialize (Hall cur Hin). lia.
Qed.

Lemma string_of_Z_inj (a b : Z) : string_of_Z a = string_of_Z b -> a = b.
Proof.
  intro E. pose proof (numberOfString_string_of_Z a) as Ha.
  rewrite E, numberOfString_string_of_Z in Ha. injection Ha as Ha. symmetry. exact Ha.
Qed.

(** Among the page buttons, exactly one is disabled, the one of the current
    page, whenever the current page is one of the result pages. *)
Theorem buildPageControls_current_disabled (pageSize currentPage : Z) (json : QueryResult) :
  0 <= qr_count json -> 0 < pageSize ->
  1 <= currentPage <= ceilDiv (qr_count json) pageSize ->
  exists prevValue nextValue mid,
    buildPageControls pageSize currentPage json
      = PageButton "<" prevValue :: mid ++ [PageButton ">" nextValue]
    /\ filter disabledButton mid = [PageButton (string_of_Z currentPage) None].
Proof.
  intros Hc Hp Hcur. unfold buildPageControls.
  set (t := ceilDiv (qr_count json) pageSize) in *.
  eexists _, _, _. split; [reflexivity|].
  rewrite filter_disabled_ellipses.
  destruct (determinePages_numbers_sorted currentPage t 10 2) as (xs & Exs & Hs & Hb);
    [lia | lia |].
  rewrite Exs, filter_disabled_numbers.
  rewrite (filter_eqb_sorted currentPage xs Hs); [reflexivity|].
  assert (Hin : In (string_of_Z currentPage) (map string_of_Z xs)).
  { rewrite <- Exs. apply filter_In. split.
    - apply determinePages_surrounding_in; lia.
    - rewrite string_of_Z_eqb_ellipses. reflexivity. }
  apply in_map_iff in Hin. destruct Hin as (x & Ex & Hx).
  apply string_of_Z_inj in Ex. subst x. exact Hx.
Qed.

(** The page numbers [determinePages] lists (the entries other than the
    ellipses) strictly increase from 1 and never pass the last page. *)
Theorem determinePages_numbers_increasing (currentPage totalPages maxControls surroundingControls : Z) :
  1 <= totalPages -> 4 <= maxControls ->
  exists xs,
    filter (fun e => negb (String.eqb e ellipses))
      (determinePages currentPage totalPages maxControls surroundingControls)
    = map string_of_Z xs
    /\ Sorted Z.lt xs /\ Forall (fun x => 1 <= x <= totalPages) xs.
Proof. exact (determinePages_numbers_sorted currentPage totalPages maxControls surroundingControls). Qed.

(** Every page within [surroundingControls] of the current page is listed,
    when [maxControls] leaves room for them. *)
Theorem determinePages_shows_surrounding (currentPage totalPages maxControls surroundingControls : Z)
        (p : Z) :
  1 <= currentPage <= totalPages -> 0 <= surroundingControls ->
  2 * surroundingControls + 5 <= maxControls ->
  1 <= p <= totalPages -> Z.abs (p - currentPage) <= surroundingControls ->
  In (string_of_Z p) (determinePages currentPage totalPages maxControls surroundingControls).
Proof. exact (determinePages_surrounding_in currentPage totalPages maxControls surroundingControls p). Qed.

(* ---------------------------------------------------------------------------
   The results table
   --------------------------------------------------------------------------- *)

Lemma includes_In (xs : list string) (x : string) : includes xs x = true <-> In x xs.
Proof.
  unfold includes. rewrite existsb_exists. split.
  - intros (y & Hy & E). apply String.eqb_eq in E. subst. exact Hy.
  - intro H. exists x. split; [exact H | apply String.eqb_refl].
Qed.

(** A column is shown exactly when the query asked for it, and
    "download_link" only when the configured order lists it. *)
Theorem getResultColsInDisplayOrder_columns (resultFieldOrder results : list string) (f : string) :
  In f (getResultColsInDisplayOrder resultFieldOrder results)
  <-> In f results /\ (In f resultFieldOrder \/ f <> "download_link").
Proof.
  unfold getResultColsInDisplayOrder. rewrite in_app_iff, !filter_In, andb_true_iff,
    !negb_true_iff, includes_In.
  destruct (includes resultFieldOrder f) eqn:Eo;
    [apply includes_In in Eo | assert (~ In f resultFieldOrder) by
       (intro H; apply includes_In in H; congruence)];
  destruct (String.eqb_spec f "download_link"); intuition congruence.
Qed.

Lemma NoDup_filter {A} (p : A -> bool) (l : list A) : NoDup l -> NoDup (filter p l).
Proof.
  induction 1 as [|x l Hx Hl IH]; [constructor|]. cbn [filter].
  destruct (p x); [|exact IH]. constructor; [|exact IH].
  rewrite filter_In. tauto.
Qed.

(** With no field repeated in the configured order or in the query, no
    column is shown twice. *)
Theorem getResultColsInDisplayOrder_nodup (resultFieldOrder results : list string) :
  NoDup resultFieldOrder -> NoDup results ->
  NoDup (getResultColsInDisplayOrder resultFieldOrder results).
Proof.
  intros Ho Hr. unfold getResultColsInDisplayOrder.
  apply NoDup_app; [apply NoDup_filter; exact Ho | apply NoDup_filter; exact Hr |].
  intros x Hx1 Hx2. rewrite filter_In in Hx1, Hx2.
  destruct Hx1 as [Hx1 _]. destruct Hx2 as [_ Hx2].
  apply andb_true_iff in Hx2. destruct Hx2 as [Hx2 _].
  apply negb_true_iff in Hx2. apply includes_In in Hx1. congruence.
Qed.

Lemma setNth_length {A} (i : nat) (v : A) (xs : list A) :
  List.length (setNth i v xs) = List.length xs.
Proof.
  revert i. induction xs as [|x xs IH]; intros [|i]; simpl; auto.
Qed.

Lemma countChecked_cons (b : bool) (bs : list bool) :
  countChecked (b :: bs) = (if b then 1 else 0) + countChecked bs.
Proof.
  unfold countChecked. destruct b; simpl count_occ; [rewrite Nat2Z.inj_succ|]; lia.
Qed.

Lemma countChecked_setNth (i : nat) (bs : list bool) (b : bool) :
  nth_error bs i = Some b ->
  countChecked (setNth i (negb b) bs) = countChecked bs + (if b then -1 else 1).
Proof.
  revert i. induction bs as [|x bs IH]; intros [|i] H; try discriminate.
  - injection H as ->. cbn [setNth]. rewrite !countChecked_cons. destruct b; cbn [negb]; lia.
  - cbn [setNth]. rewrite !countChecked_cons, (IH i H). lia.
Qed.

Lemma countChecked_bounds (bs : list bool) :
  0 <= countChecked bs <= Z.of_nat (List.length bs).
Proof.
  induction bs as [|b bs IH]; [unfold countChecked; simpl; lia|].
  rewrite countChecked_cons. cbn [List.length]. rewrite Nat2Z.inj_succ. destruct b; lia.
Qed.

Lemma countChecked_all (bs : list bool) :
  countChecked bs = Z.of_nat (List.length bs) <-> forallb (fun b => b) bs = true.
Proof.
  induction bs as [|b bs IH]; [simpl; split; reflexivity|].
  rewrite countChecked_cons. cbn [List.length forallb]. rewrite Nat2Z.inj_succ.
  pose proof (countChecked_bounds bs). destruct b; cbn [andb].
  - rewrite <- IH. lia.
  - split; [lia | discriminate].
Qed.

Lemma countChecked_none (bs : list bool) :
  countChecked bs = 0 <-> existsb (fun b => b) bs = false.
Proof.
  induction bs as [|b bs IH]; [simpl; split; reflexivity|].
  rewrite countChecked_cons. cbn [existsb].
  pose proof (countChecked_bounds bs). destruct b; cbn [orb].
  - split; [lia | discriminate].
  - rewrite <- IH. lia.
Qed.

Lemma countChecked_map_const (v : bool) (bs : list bool) :
  countChecked (map (fun _ => v) bs) = if v then Z.of_nat (List.length bs) else 0.
Proof.
  induction bs as [|b bs IH]; [destruct v; reflexivity|].
  cbn [map List.length]. rewrite countChecked_cons, IH, Nat2Z.inj_succ. destruct v; lia.
Qed.

(** Clicking a row box or the header box keeps the counter equal to the
    number of checked rows, and the Download Selected buttons disabled
    exactly when no row is checked. *)
Theorem selection_clicks_consistent (st : Selection) :
  selectionConsistent st ->
  (forall i, selectionConsistent (clickRow i st)) /\ selectionConsistent (clickHeader st).
Proof.
  intros [Hc Hd]. split.
  - intro i. unfold clickRow.
    destruct (nth_error (rowChecks st) i) as [b|] eqn:Hb; [|split; assumption].
    pose proof (countChecked_setNth i (rowChecks st) b Hb) as Hcnt.
    pose proof (countChecked_bounds (setNth i (negb b) (rowChecks st))) as Hbd.
    rewrite setNth_length in Hbd.
    unfold rowSelected, selectionConsistent. cbn [rowChecks numRowsSelected selectedDisabled].
    rewrite setNth_length.
    set (n := Z.of_nat (List.length (rowChecks st))) in *.
    split; [|reflexivity].
    destruct b; cbn [negb] in *;
      repeat match goal with
             | |- context [?a <? ?b] => destruct (Z.ltb_spec a b)
             | |- context [?a >? ?b] => destruct (Z.gtb_spec a b)
             end; lia.
  - unfold clickHeader, selectResults, selectionConsistent.
    cbn [rowChecks hdrIndeterminate hdrChecked].
    destruct (negb (hdrChecked st)); cbn [numRowsSelected rowChecks selectedDisabled];
      rewrite countChecked_map_const; split; reflexivity.
Qed.

(** After a click on a row, the header box is checked exactly when every
    row is checked and indeterminate exactly when some but not all are. *)
Theorem clickRow_header_state (st : Selection) (i : nat) :
  selectionConsistent st -> (i < List.length (rowChecks st))%nat ->
  let st' := clickRow i st in
  hdrChecked st' = forallb (fun b => b) (rowChecks st')
  /\ hdrIndeterminate st' = existsb (fun b => b) (rowChecks st')
                            && negb (forallb (fun b => b) (rowChecks st')).
Proof.
  intros [Hc _] Hi. cbn zeta.
  destruct (nth_error (rowChecks st) i) as [b|] eqn:Hb;
    [|apply nth_error_None in Hb; lia].
  pose proof (countChecked_setNth i (rowChecks st) b Hb) as Hcnt.
  unfold clickRow. rewrite Hb.
  set (bs := setNth i (negb b) (rowChecks st)) in *.
  assert (Hlen : List.length bs = List.length (rowChecks st)) by apply setNth_length.
  pose proof (countChecked_all bs) as Hall. pose proof (countChecked_none bs) as Hnone.
  pose proof (countChecked_bounds bs) as Hbd.
  unfold rowSelected. cbn [rowChecks numRowsSelected hdrChecked hdrIndeterminate].
  rewrite Hlen in *.
  set (n := Z.of_nat (List.length (rowChecks st))) in *.
  assert (Hk : (if negb b then numRowsSelected st + 1 else numRowsSelected st - 1)
               = countChecked bs) by (destruct b; cbn [negb]; lia).
  rewrite Hk.
  replace (if countChecked bs <? 0 then 0 else if countChecked bs >? n then n else countChecked bs)
    with (countChecked bs)
    by (destruct (Z.ltb_spec (countChecked bs) 0); [lia|];
        destruct (Z.gtb_spec (countChecked bs) n); lia).
  destruct (forallb (fun b => b) bs) eqn:Ef, (existsb (fun b => b) bs) eqn:Ee;
    destruct (Z.eqb_spec (countChecked bs) 0), (Z.eqb_spec (countChecked bs) n);
    cbn [andb negb]; split; try reflexivity; exfalso;
    try (apply Hall in Ef); try (apply Hnone in Ee);
    try (assert (countChecked bs <> n) by (intro E; apply Hall in E; congruence));
    try (assert (countChecked bs <> 0) by (intro E; apply Hnone in E; congruence));
    try lia.
Qed.

(** A click on the header box sets every row to the header's new state,
    the opposite of its checked state before the click: from the
    indeterminate state [rowSelected] leaves (checked false), every row
    becomes selected. *)
Theorem clickHeader_rows (st : Selection) :
  rowChecks (clickHeader st) = map (fun _ => negb (hdrChecked st)) (rowChecks st)
  /\ (hdrIndeterminate st = true -> hdrChecked st = false ->
      forallb (fun b => b) (rowChecks (clickHeader st)) = true).
Proof.
  unfold clickHeader, selectResults. cbn [rowChecks hdrIndeterminate hdrChecked].
  split; [destruct (hdrChecked st); reflexivity|].
  intros _ ->. cbn [negb rowChecks]. apply forallb_forall.
  intros x Hx. apply in_map_iff in Hx. destruct Hx as (? & <- & _). reflexivity.
Qed.

(** The counter survives a new results table: after a previous selection,
    checking and unchecking a row of a new table of two or more results
    leaves every row unchecked but Download Selected enabled. *)
Theorem newResultTable_stale_counter (st : Selection) (n : nat) :
  1 <= numRowsSelected st -> (2 <= n)%nat ->
  let st' := clickRow 0 (clickRow 0 (newResultTable n st)) in
  rowChecks st' = repeat false n /\ selectedDisabled st' = false.
Proof.
  intros Hk Hn. cbn zeta.
  set (st1 := clickRow 0 (newResultTable n st)).
  assert (H1 : rowChecks st1 = true :: repeat false (n - 1)
               /\ 2 <= numRowsSelected st1 <= Z.of_nat n).
  { subst st1. destruct n as [|n]; [lia|].
    unfold clickRow, newResultTable, rowSelected. cbn [rowChecks nth_error repeat negb setNth
      numRowsSelected List.length].
    rewrite repeat_length. split; [f_equal; f_equal; lia|].
    destruct (Z.ltb_spec (numRowsSelected st + 1) 0); [lia|].
    destruct (Z.gtb_spec (numRowsSelected st + 1) (Z.of_nat (S n))); lia. }
  destruct H1 as [Hr Hk1].
  unfold clickRow. rewrite Hr. cbn [nth_error negb setNth].
  unfold rowSelected. cbn [rowChecks numRowsSelected selectedDisabled List.length].
  rewrite repeat_length.
  replace (Z.of_nat (S (n - 1))) with (Z.of_nat n) by lia.
  split; [destruct n as [|n]; [lia|]; cbn [repeat]; f_equal; f_equal; lia|].
  destruct (Z.ltb_spec (numRowsSelected st1 - 1) 0); [lia|].
  destruct (Z.gtb_spec (numRowsSelected st1 - 1) (Z.of_nat n)); [lia|].
  apply Z.eqb_neq. lia.
Qed.

(* ---------------------------------------------------------------------------
   Download Selected
   --------------------------------------------------------------------------- *)

Lemma splitOn_nonnil (c : ascii) (s : string) : splitOn c s <> [].
Proof.
  induction s as [|d s IH]; simpl; [discriminate|].
  destruct (Ascii.eqb d c); [discriminate|].
  destruct (splitOn c s); discriminate.
Qed.

Lemma splitOn_app (c : ascii) (x y : string) :
  splitOn c (String.append x (String c y)) = splitOn c x ++ splitOn c y.
Proof.
  induction x as [|d x IH]; simpl.
  - rewrite Ascii.eqb_refl. reflexivity.
  - rewrite IH. destruct (Ascii.eqb d c); [reflexivity|].
    destruct (splitOn c x) eqn:E; [exfalso; exact (splitOn_nonnil c x E)|]. reflexivity.
Qed.

Lemma splitOn_noChar (c : ascii) (x : string) : noChar c x = true -> splitOn c x = [x].
Proof.
  induction x as [|d x IH]; simpl; [reflexivity|].
  intro H. apply andb_true_iff in H. destruct H as [Hd Hx].
  apply negb_true_iff in Hd. rewrite Hd, (IH Hx). reflexivity.
Qed.

Lemma digit_char_not (k : Z) (c : ascii) :
  0 <= k < 10 -> (nat_of_ascii c < 48 \/ 57 < nat_of_ascii c)%nat ->
  Ascii.eqb (digit_char k) c = false.
Proof.
  intros Hk Hc. apply Ascii.eqb_neq. intro E. subst c.
  rewrite digit_char_code in Hc by exact Hk. lia.
Qed.

Lemma noChar_digits_aux (c : ascii) (f : nat) :
  (nat_of_ascii c < 48 \/ 57 < nat_of_ascii c)%nat ->
  forall n acc, noChar c acc = true -> noChar c (digits_aux f n acc) = true.
Proof.
  intro Hc. induction f as [|f IH]; intros n acc Hacc; simpl; [exact Hacc|].
  destruct (n =? 0); [exact Hacc|]. apply IH. cbn [noChar].
  rewrite digit_char_not by (try apply Z.mod_pos_bound; lia). exact Hacc.
Qed.

Lemma noChar_string_of_nonneg (c : ascii) (n : Z) :
  (nat_of_ascii c < 48 \/ 57 < nat_of_ascii c)%nat -> noChar c (string_of_nonneg n) = true.
Proof.
  intro Hc. unfold string_of_nonneg. destruct (n =? 0).
  - change (noChar c (String (digit_char 0) "") = true). cbn [noChar].
    rewrite (digit_char_not 0 c) by lia. reflexivity.
  - apply noChar_digits_aux; [exact Hc | reflexivity].
Qed.

Lemma resultCheckboxId_index (i : nat) :
  last (splitOn "_" (resultCheckboxId i)) "" = string_of_nonneg (Z.of_nat i).
Proof.
  unfold resultCheckboxId, string_of_Z.
  replace (Z.of_nat i <? 0) with false by (symmetry; apply Z.ltb_ge; lia).
  change (String.append "search_results_select_" ?d)
    with (String.append "search_results_select" (String "_" d)).
  rewrite splitOn_app, (splitOn_noChar "_" (string_of_nonneg (Z.of_nat i)))
    by (apply noChar_string_of_nonneg; change (nat_of_ascii "_") with 95%nat; lia).
  rewrite last_app_nonnil by discriminate. reflexivity.
Qed.

Lemma arrayIndex_nonneg {A} (xs : list A) (i : nat) :
  arrayIndex xs (string_of_nonneg (Z.of_nat i)) = nth_error xs i.
Proof.
  unfold arrayIndex. rewrite parseDigits_string_of_nonneg by lia.
  rewrite String.eqb_refl, Nat2Z.id. reflexivity.
Qed.

Lemma selectedFilenames_spec (rows : list Row) (checks : list bool) (k : nat) :
  (k + List.length checks <= List.length rows)%nat ->
  selectedFilenames (combine (map resultCheckboxId (seq k (List.length checks))) checks) (Some rows)
  = Some (map (rowGet "filename") (checkedRows checks (skipn k rows))).
Proof.
  revert k. induction checks as [|b checks IH]; intros k Hk; [reflexivity|].
  cbn [List.length] in Hk.
  cbn [List.length seq map combine selectedFilenames].
  assert (Hrows : skipn k rows = nth k rows [] :: skipn (S k) rows).
  { clear -Hk. revert k Hk. induction rows as [|r rows IHr]; intros [|k] Hk;
      cbn [List.length] in Hk; try lia; [reflexivity|]. cbn [skipn nth]. apply IHr. lia. }
  unfold checkedRows. rewrite Hrows. cbn [combine filter fst].
  destruct b.
  - rewrite resultCheckboxId_index, arrayIndex_nonneg.
    rewrite (nth_error_nth' rows [] (n:=k)) by lia.
    rewrite IH by lia. reflexivity.
  - rewrite IH by lia. reflexivity.
Qed.

(** After [processResults] shows a table of results, Download Selected
    submits the "filename" of each checked row, in the order of the rows
    (nothing when no row is checked). *)
Theorem downloadSelected_checked_rows (qp : QMap) (json : QueryResult) (p p' : Page)
        (checks : list bool) :
  processResults qp json p = Finished p' -> tableHidden p' = false ->
  exists rows,
    qr_results json = Some rows
    /\ (List.length checks = List.length rows ->
        downloadSelected (resultCheckboxes checks) (latestQueryResults p')
        = Some (submitDownload (map (rowGet "filename") (checkedRows checks rows)))).
Proof.
  intros H Hh. unfold processResults in H.
  destruct (qr_error json) as [e|].
  - injection H as <-. discriminate Hh.
  - destruct ((qr_count json =? 0) || mapHas "count" qp).
    + injection H as <-. discriminate Hh.
    + unfold showResults in H. cbn [latestQueryResults] in H.
      destruct (qr_results json) as [rows|] eqn:Er; [|discriminate].
      injection H as <-. exists rows. split; [reflexivity|].
      intro Hlen. cbn [latestQueryResults]. unfold downloadSelected, resultCheckboxes.
      rewrite (selectedFilenames_spec rows checks 0) by lia. reflexivity.
Qed.

(* ---------------------------------------------------------------------------
   The query string read back
   --------------------------------------------------------------------------- *)

Lemma hexValue_hexDigit (d : nat) : (d < 16)%nat -> hexValue (hexDigit d) = Some d.
Proof.
  intro Hd. do 16 (destruct d as [|d]; [reflexivity|]). lia.
Qed.

Lemma hexDigit_code (d : nat) : (d < 16)%nat ->
  (48 <= nat_of_ascii (hexDigit d) <= 57 \/ 65 <= nat_of_ascii (hexDigit d) <= 70)%nat.
Proof.
  intro Hd. do 16 (destruct d as [|d]; [vm_compute; lia|]). lia.
Qed.

Lemma ascii_of_code (c : ascii) (b : nat) : nat_of_ascii c = b -> c = ascii_of_nat b.
Proof. intros <-. symmetry. apply ascii_nat_embedding. Qed.

Lemma eqb_code (c d : ascii) : nat_of_ascii c <> nat_of_ascii d -> Ascii.eqb c d = false.
Proof. intro H. apply Ascii.eqb_neq. intros ->. apply H. reflexivity. Qed.

Lemma formDecode_encode (s : string) : formDecode (formEncode s) = s.
Proof.
  induction s as [|c s IH]; [reflexivity|].
  cbn [formEncode].
  pose proof (nat_ascii_bounded c) as Hb.
  set (b := nat_of_ascii c) in *.
  destruct (Nat.eqb b 42 || Nat.eqb b 45 || Nat.eqb b 46 || Nat.eqb b 95
            || (Nat.leb 48 b && Nat.leb b 57) || (Nat.leb 65 b && Nat.leb b 90)
            || (Nat.leb 97 b && Nat.leb b 122))%bool eqn:Eu.
  - cbn [formDecode].
    repeat rewrite orb_true_iff in Eu. repeat rewrite andb_true_iff in Eu.
    rewrite !Nat.eqb_eq, !Nat.leb_le in Eu.
    rewrite !eqb_code by (change (nat_of_ascii "+") with 43%nat;
                          change (nat_of_ascii "%") with 37%nat; fold b; lia).
    rewrite IH. reflexivity.
  - destruct (Nat.eqb_spec b 32) as [E|E].
    + cbn [formDecode]. rewrite Ascii.eqb_refl, IH. f_equal.
      symmetry. exact (ascii_of_code c 32 E).
    + cbn [formDecode]. change (Ascii.eqb "%" "+") with false. cbn iota.
      change (Ascii.eqb "%" "%") with true. cbn iota.
      rewrite !hexValue_hexDigit by (try apply Nat.Div0.div_lt_upper_bound; try apply Nat.mod_upper_bound; lia).
      rewrite IH. f_equal.
      rewrite (ascii_of_code c b eq_refl). f_equal.
      rewrite Nat.mul_comm. symmetry. apply Nat.div_mod. lia.
Qed.

Lemma noChar_formEncode (c : ascii) (s : string) :
  nat_of_ascii c = 38%nat \/ nat_of_ascii c = 61%nat -> noChar c (formEncode s) = true.
Proof.
  intro Hc. induction s as [|d s IH]; [reflexivity|].
  cbn [formEncode].
  set (b := nat_of_ascii d).
  destruct (Nat.eqb b 42 || Nat.eqb b 45 || Nat.eqb b 46 || Nat.eqb b 95
            || (Nat.leb 48 b && Nat.leb b 57) || (Nat.leb 65 b && Nat.leb b 90)
            || (Nat.leb 97 b && Nat.leb b 122))%bool eqn:Eu.
  - cbn [noChar]. rewrite IH, eqb_code; [reflexivity|].
    repeat rewrite orb_true_iff in Eu. repeat rewrite andb_true_iff in Eu.
    rewrite !Nat.eqb_eq, !Nat.leb_le in Eu. fold b. lia.
  - destruct (Nat.eqb b 32); cbn [noChar]; rewrite IH.
    + rewrite eqb_code; [reflexivity|]. change (nat_of_ascii "+") with 43%nat. lia.
    + rewrite (eqb_code "%"), !eqb_code; [reflexivity| | |];
        try (change (nat_of_ascii "%") with 37%nat; lia);
        pose proof (nat_ascii_bounded d);
        match goal with |- context [hexDigit ?e] =>
          assert (He : (e < 16)%nat)
            by (try apply Nat.Div0.div_lt_upper_bound; try apply Nat.mod_upper_bound; lia);
          pose proof (hexDigit_code e He); lia
        end.
Qed.

Lemma breakAt_app (c : ascii) (x y : string) :
  noChar c x = true -> breakAt c (String.append x (String c y)) = (x, y).
Proof.
  induction x as [|d x IH]; intro H; cbn [String.append breakAt].
  - rewrite Ascii.eqb_refl. reflexivity.
  - cbn [noChar] in H. apply andb_true_iff in H. destruct H as [Hd Hx].
    apply negb_true_iff in Hd. rewrite Hd, (IH Hx). reflexivity.
Qed.

Lemma splitOn_concat (c : ascii) (xs : list string) :
  xs <> [] -> Forall (fun x => noChar c x = true) xs ->
  splitOn c (String.concat (String c "") xs) = xs.
Proof.
  induction xs as [|x xs IH]; intros Hne Hall; [contradiction|].
  inversion Hall as [|? ? Hx Hxs]; subst.
  destruct xs as [|y ys].
  - cbn [String.concat]. apply splitOn_noChar. exact Hx.
  - change (String.concat (String c "") (x :: y :: ys))
      with (String.append x (String.append (String c "") (String.concat (String c "") (y :: ys)))).
    cbn [String.append]. rewrite splitOn_app, splitOn_noChar by exact Hx.
    rewrite IH by (discriminate || exact Hxs). reflexivity.
Qed.

Lemma noChar_append (c : ascii) (x y : string) :
  noChar c (String.append x y) = noChar c x && noChar c y.
Proof.
  induction x as [|d x IH]; [reflexivity|]. cbn [String.append noChar].
  rewrite IH, andb_assoc. reflexivity.
Qed.

Lemma queryPair_parts (kv : string * QValue) :
  queryPair kv = String.append (formEncode (fst kv)) (String "=" (formEncode (qvalueString (snd kv)))).
Proof. reflexivity. Qed.

Lemma formParse_pairs (l : QMap) :
  map (fun piece => let (name, value) := breakAt "=" piece in (formDecode name, formDecode value))
      (filter (fun piece => negb (String.eqb piece "")) (map queryPair l))
  = map (fun kv => (fst kv, qvalueString (snd kv))) l.
Proof.
  induction l as [|kv l IH]; [reflexivity|].
  cbn [map filter].
  replace (String.eqb (queryPair kv) "") with false
    by (rewrite queryPair_parts; destruct (formEncode (fst kv)); reflexivity).
  cbn [negb map]. rewrite queryPair_parts, breakAt_app, !formDecode_encode, IH;
    [reflexivity|]. apply noChar_formEncode. change (nat_of_ascii "=") with 61%nat. lia.
Qed.

(** Parsing the query string of [queryParamsToString] gives back every Map
    entry, in order, its value written as [qvalueString] writes it. *)
Theorem queryParamsToString_parse (cfg : Config) (qp : QMap) :
  exists query,
    queryParamsToString cfg qp = String.append (backendURLBase cfg) (String.append "data/?" query)
    /\ formParse query = map (fun kv => (fst kv, qvalueString (snd kv))) qp.
Proof.
  exists (String.concat "&" (map queryPair qp)). split; [reflexivity|].
  unfold formParse.
  destruct qp as [|kv qp]; [reflexivity|].
  rewrite (splitOn_concat "&" (map queryPair (kv :: qp))); [apply formParse_pairs | discriminate |].
  apply Forall_forall. intros x Hx. apply in_map_iff in Hx.
  destruct Hx as (kv' & <- & _). rewrite queryPair_parts, noChar_append.
  cbn [noChar]. rewrite !noChar_formEncode
    by (change (nat_of_ascii "&") with 38%nat; lia). reflexivity.
Qed.

(** Decoding undoes [formEncode]: the server reads back every name and
    value exactly as the page wrote it. *)
Theorem formDecode_formEncode (s : string) : formDecode (formEncode s) = s.
Proof. exact (formDecode_encode s). Qed.

(* ---------------------------------------------------------------------------
   The instrument check boxes
   --------------------------------------------------------------------------- *)

Lemma nth_error_setNth_eq {A} (xs : list A) (i : nat) (v : A) :
  (i < List.length xs)%nat -> nth_error (setNth i v xs) i = Some v.
Proof.
  revert i. induction xs as [|x xs IH]; intros [|i] H; cbn in *; try lia; [reflexivity|].
  apply IH. lia.
Qed.

Lemma nth_error_setNth_neq {A} (xs : list A) (i j : nat) (v : A) :
  i <> j -> nth_error (setNth i v xs) j = nth_error xs j.
Proof.
  revert i j. induction xs as [|x xs IH]; intros [|i] [|j] H; cbn; try reflexivity; try lia.
  apply IH. lia.
Qed.

Lemma getBox_setBox_eq (boxes : list bool) (i : Z) (v : bool) (b : bool) :
  getBox boxes i = Some b -> getBox (setBox boxes i v) i = Some v.
Proof.
  unfold getBox, setBox. destruct (i <? 0); [discriminate|].
  intro H. apply nth_error_setNth_eq. apply nth_error_Some. congruence.
Qed.

Lemma getBox_setBox_neq (boxes : list bool) (i j : Z) (v : bool) :
  0 <= i -> i <> j -> getBox (setBox boxes i v) j = getBox boxes j.
Proof.
  intros Hi Hij. unfold getBox, setBox. destruct (Z.ltb_spec j 0); [reflexivity|].
  apply nth_error_setNth_neq. lia.
Qed.

Lemma indexOf_inj (x y : string) (xs : list string) :
  indexOf x xs = indexOf y xs -> 0 <= indexOf x xs -> x = y.
Proof.
  induction xs as [|z xs IH]; cbn [indexOf]; [lia|].
  destruct (String.eqb_spec x z), (String.eqb_spec y z); try congruence;
    destruct (Z.ltb_spec (indexOf x xs) 0), (Z.ltb_spec (indexOf y xs) 0); try lia.
  intros E _. apply IH; lia.
Qed.

Lemma getBox_nonneg (boxes : list bool) (i : Z) (b : bool) : getBox boxes i = Some b -> 0 <= i.
Proof. unfold getBox. destruct (Z.ltb_spec i 0); [discriminate | lia]. Qed.

Lemma countCheckedSiblings_all (order siblings : list string) (boxes : list bool) (k : nat) :
  countCheckedSiblings order siblings boxes = Some k ->
  (Nat.eqb k (List.length siblings) = true
   <-> Forall (fun s => getBox boxes (indexOf s order) = Some true) siblings).
Proof.
  revert k. induction siblings as [|s rest IH]; intros k H; cbn [countCheckedSiblings] in H.
  - injection H as <-. split; [constructor | reflexivity].
  - destruct (getBox boxes (indexOf s order)) as [b|] eqn:Eb; [|discriminate].
    destruct (countCheckedSiblings order rest boxes) as [k'|] eqn:Ek; [|discriminate].
    injection H as <-. specialize (IH k' eq_refl).
    assert (Hle : (k' <= List.length rest)%nat).
    { clear -Ek. revert k' Ek. induction rest as [|s' rest' IHr]; intros k' Ek;
        cbn [countCheckedSiblings] in Ek; [injection Ek as <-; cbn; lia|].
      destruct (getBox boxes (indexOf s' order)) as [b'|]; [|discriminate].
      destruct (countCheckedSiblings order rest' boxes) as [k''|]; [|discriminate].
      injection Ek as <-. specialize (IHr k'' eq_refl). cbn [List.length].
      destruct b'; lia. }
    cbn [List.length]. rewrite Forall_cons_iff. destruct b.
    + cbn [Nat.eqb]. rewrite IH. tauto.
    + split; [intro E; apply Nat.eqb_eq in E; lia | intros [E _]; congruence].
Qed.

(** After a click on a child instrument, its parent's box is checked
    exactly when every sibling box is checked (the parent not being one of
    its own children), and the siblings' boxes are left as they were. *)
Theorem selectInstrumentChild_parent (cfg : InstrumentConfig) (value : string)
        (boxes boxes' : list bool) (ins par : Instrument) :
  instruments cfg value = Some ins -> instruments cfg (parent ins) = Some par ->
  ~ In (parent ins) (children par) ->
  selectInstrumentChild cfg value boxes = Some boxes' ->
  (boxOf cfg boxes' (parent ins) = Some true
   <-> Forall (fun s => boxOf cfg boxes' s = Some true) (children par))
  /\ (forall s, In s (children par) -> boxOf cfg boxes' s = boxOf cfg boxes s)
  /\ boxOf cfg boxes' (parent ins) <> None.
Proof.
  intros Hv Hp Hnot H. unfold selectInstrumentChild in H. rewrite Hv, Hp in H.
  destruct (countCheckedSiblings (instrumentOrder cfg) (children par) boxes) as [k|] eqn:Ek;
    [|discriminate].
  set (pi := indexOf (parent ins) (instrumentOrder cfg)) in *.
  destruct (getBox boxes pi) as [pb|] eqn:Epb; [|discriminate].
  injection H as <-.
  pose proof (getBox_nonneg _ _ _ Epb) as Hpi.
  assert (Hsib : forall s, In s (children par) -> boxOf cfg (setBox boxes pi (Nat.eqb k (List.length (children par)))) s = boxOf cfg boxes s).
  { intros s Hs. unfold boxOf. apply getBox_setBox_neq; [exact Hpi|].
    intro E. apply Hnot. subst pi.
    rewrite (indexOf_inj (parent ins) s (instrumentOrder cfg) E Hpi). exact Hs. }
  split; [|split; [exact Hsib|]].
  - unfold boxOf at 1. fold pi. rewrite (getBox_setBox_eq _ _ _ _ Epb).
    rewrite Forall_forall.
    assert (Hall := countCheckedSiblings_all _ _ _ _ Ek). rewrite Forall_forall in Hall.
    split.
    + intros E s Hs. injection E as E. rewrite Hsib by exact Hs.
      apply (proj1 Hall E s Hs).
    + intros Hs. f_equal. apply Hall. intros s Hin. specialize (Hs s Hin). rewrite (Hsib s Hin) in Hs. exact Hs.
  - unfold boxOf. fold pi. rewrite (getBox_setBox_eq _ _ _ _ Epb). discriminate.
Qed.

Lemma setChildren_spec (order : list string) (checked : bool) (keys : list string) :
  forall boxes boxes',
  setChildren order checked keys boxes = Some boxes' ->
  (forall k, In k keys -> getBox boxes' (indexOf k order) = Some checked)
  /\ (forall i, (forall k, In k keys -> indexOf k order <> i) -> getBox boxes' i = getBox boxes i).
Proof.
  induction keys as [|k rest IH]; intros boxes boxes' H; cbn [setChildren] in H.
  - injection H as <-. split; [intros k [] | reflexivity].
  - destruct (getBox boxes (indexOf k order)) as [b|] eqn:Eb; [|discriminate].
    destruct (IH _ _ H) as [Hin Hout].
    pose proof (getBox_nonneg _ _ _ Eb) as Hk.
    split.
    + intros k' [<- | Hk']; [|exact (Hin k' Hk')].
      destruct (in_dec String.string_dec k rest) as [Hr | Hr]; [exact (Hin k Hr)|].
      rewrite Hout by (intros k'' Hk'' E; apply Hr;
        rewrite (indexOf_inj k k'' order (eq_sym E) Hk); exact Hk'').
      exact (getBox_setBox_eq _ _ _ _ Eb).
    + intros i Hi. rewrite Hout by (intros k' Hk'; apply Hi; right; exact Hk').
      apply getBox_setBox_neq; [exact Hk|]. apply Hi. left. reflexivity.
Qed.

(** After a click on a category box, every child box has the category's
    new state, and every box no child occupies is left as it was. *)
Theorem selectInstrumentCategory_children (cfg : InstrumentConfig) (value : string)
        (checked : bool) (boxes boxes' : list bool) (ins : Instrument) :
  instruments cfg value = Some ins ->
  selectInstrumentCategory cfg value checked boxes = Some boxes' ->
  (forall c, In c (children ins) -> boxOf cfg boxes' c = Some checked)
  /\ (forall key, (forall c, In c (children ins) ->
                   indexOf c (instrumentOrder cfg) <> indexOf key (instrumentOrder cfg)) ->
                  boxOf cfg boxes' key = boxOf cfg boxes key).
Proof.
  intros Hv H. unfold selectInstrumentCategory in H. rewrite Hv in H.
  destruct (setChildren_spec _ _ _ _ _ H) as [Hin Hout].
  split; [exact Hin|]. intros key Hkey. apply Hout. exact Hkey.
Qed.

(* ---------------------------------------------------------------------------
   The login client
   --------------------------------------------------------------------------- *)

Ltac run_client :=
  repeat (unfold run, getLoginStatus, ensureToken, login, logout, tryCatch, sbind, get, fetch,
            modify, json, sret, sthrow in *; cbn in *).

(** After [getLoginStatus] fails (its error message is set), the user and
    the CSRF token are null; when it succeeds, both come from the JSON of
    an ok response to the GET of [api/login], the user only when
    [logged_in]. *)
Theorem getLoginStatus_outcome (net : nat -> LoginResponse) (w : World) :
  let w' := run (getLoginStatus net) w in
  sent w' = sent w ++ [{| req_method := "GET"; req_url := String.append (urlBase (client w)) "api/login";
                          req_body := [] |}]
  /\ (looseNull (errorMessage (client w')) = false ->
      loginUser (client w') = JNull /\ apiCSRFToken (client w') = JNull)
  /\ (looseNull (errorMessage (client w')) = true ->
      exists st body, net (List.length (sent w)) = LoginJsonBody st body /\ responseOk st = true
      /\ loginUser (client w') = (if lj_logged_in body then lj_user body else JNull)
      /\ apiCSRFToken (client w') = lj_csrfmiddlewaretoken body).
Proof.
  cbv zeta. run_client.
  destruct (net (List.length (sent w))) as [e|st e|st body]; cbn.
  - repeat split; discriminate.
  - destruct (responseOk st); cbn; repeat split; discriminate.
  - destruct (responseOk st) eqn:Eok; cbn.
    + destruct (lj_logged_in body) eqn:El; cbn;
        (split; [reflexivity | split; [discriminate | intros _; exists st, body; rewrite El; auto]]).
    + repeat split; discriminate.
Qed.

Ltac split_responses :=
  repeat match goal with
  | |- context [match ?n ?i with _ => _ end] =>
      match type of n with nat -> LoginResponse => destruct (n i) eqn:? end
  | |- context [if ?b then _ else _] => destruct b eqn:?
  end; cbn in *.

(** [logout] always leaves the CSRF token null, and when it ends with no
    error message it has also cleared the user. *)
Theorem logout_clears_token (net : nat -> LoginResponse) (w : World) :
  let w' := run (logout net) w in
  apiCSRFToken (client w') = JNull
  /\ (errorMessage (client w') = JNull -> loginUser (client w') = JNull).
Proof.
  cbv zeta. run_client. split_responses; split; try reflexivity; try discriminate.
Qed.

(** When [login] ends with no error message, its last request was the POST
    of the user name and password to [api/login], answered by an ok JSON
    response, and the user and CSRF token are that response's; when it
    ends with an error message, the CSRF token is null. *)
Theorem login_outcome (net : nat -> LoginResponse) (username password : string) (w : World) :
  let w' := run (login net username password) w in
  (errorMessage (client w') = JNull ->
   exists pre token st body,
     sent w' = pre ++ [{| req_method := "POST";
                          req_url := String.append (urlBase (client w)) "api/login";
                          req_body := [("csrfmiddlewaretoken", token); ("username", username);
                                       ("password", password)] |}]
     /\ net (List.length pre) = LoginJsonBody st body /\ responseOk st = true
     /\ loginUser (client w') = lj_user body
     /\ apiCSRFToken (client w') = lj_csrfmiddlewaretoken body)
  /\ (errorMessage (client w') <> JNull -> apiCSRFToken (client w') = JNull).
Proof.
  cbv zeta. run_client. split_responses; split; intro H; try reflexivity; try discriminate;
    try (exfalso; apply H; reflexivity).
  all: do 4 eexists; split; [reflexivity|]; split; [eassumption|];
    split; [apply negb_false_iff; assumption | auto].
Qed.

(** With no CSRF token, [login] first runs [getLoginStatus]; when that
    fails, [login] sends nothing more (the password is never posted) and
    ends exactly where [getLoginStatus] left the client. *)
Theorem login_status_failure (net : nat -> LoginResponse) (username password : string) (w : World) :
  looseNull (apiCSRFToken (client w)) = true ->
  looseNull (errorMessage (client (run (getLoginStatus net) w))) = false ->
  run (login net username password) w = run (getLoginStatus net) w.
Proof.
  intros Htok. run_client. rewrite Htok. cbn.
  destruct (net (List.length (sent w))) as [e|st e|st body]; cbn; intro H;
    [|destruct (responseOk st)..]; cbn in *; try reflexivity.
  destruct (lj_logged_in body); discriminate.
Qed.

(* ---------------------------------------------------------------------------
   The theme
   --------------------------------------------------------------------------- *)

Lemma setTheme_shown (theme : JSVal) (st : ThemeState) : themeShown (setTheme theme st).
Proof.
  exists (jsString theme). split; [reflexivity|].
  destruct theme as [| |t]; cbn; [split; reflexivity..|].
  destruct (String.eqb t "dark"); split; reflexivity.
Qed.

(** A toggle stores "dark" or "light"; toggling three times is toggling
    once, the page always shows the stored theme, and initialising the
    page (a reload) after a toggle changes nothing. *)
Theorem toggleTheme_cycle (config : option JSVal) (st st' : ThemeState) :
  toggleTheme config st = Some st' ->
  (storedTheme st' = Some "dark" \/ storedTheme st' = Some "light")
  /\ themeShown st'
  /\ initializeTheme config st' = Some st'
  /\ (exists st'', toggleTheme config st' = Some st''
                   /\ toggleTheme config st'' = Some st').
Proof.
  unfold toggleTheme, currentTheme.
  destruct (match storedTheme st with
            | Some t => if String.eqb t "" then config else Some (JStr t)
            | None => config end) as [theme|]; [|discriminate].
  intro H.
  assert (Hst : st' = setTheme (JStr "light") st \/ st' = setTheme (JStr "dark") st)
    by (destruct (match theme with JStr t => String.eqb t "dark" | _ => false end);
        injection H as <-; auto).
  clear H.
  destruct Hst as [-> | ->]; cbn.
  - split; [right; reflexivity|]. split; [apply setTheme_shown|].
    split; [reflexivity|]. eexists. split; reflexivity.
  - split; [left; reflexivity|]. split; [apply setTheme_shown|].
    split; [reflexivity|]. eexists. split; reflexivity.
Qed.

(** With a non-empty stored theme, initialising the page succeeds whatever
    [config] is, shows that theme and keeps it stored. *)
Theorem initializeTheme_stored (config : option JSVal) (st : ThemeState) (t : string) :
  storedTheme st = Some t -> t <> "" ->
  exists st', initializeTheme config st = Some st' /\ storedTheme st' = Some t /\ themeShown st'.
Proof.
  intros Hs Ht. unfold initializeTheme, currentTheme. rewrite Hs.
  replace (String.eqb t "") with false by (symmetry; apply String.eqb_neq; exact Ht).
  eexists. split; [reflexivity|]. split; [reflexivity | apply setTheme_shown].
Qed.

(* ===========================================================================
   The properties at concrete inputs
   =========================================================================== *)

Lemma determinePages_first_and_last_witness :
  1 <= 12 /\ 4 <= 10 /\
  hd_error (determinePages 5 12 10 2) = Some "1"
  /\ (1 < 12 -> last (determinePages 5 12 10 2) "" = string_of_Z 12).
Proof.
  split; [lia | split; [lia |]].
  apply (determinePages_first_and_last 5 12 10 2); lia.
Defined.

Lemma determinePages_ellipses_placement_witness :
  100 > 12 + 2 /\
  (let pages := determinePages 50 100 12 2 in
   (50 <= 12 - 2 - 2 ->
      exists front, pages = front ++ [ellipses; string_of_Z 100] /\ ~ In ellipses front)
   /\ (50 > 12 - 2 - 2 ->
      (50 + 2 < 100 ->
         exists mid, pages = "1" :: ellipses :: mid ++ [ellipses; string_of_Z 100]
                     /\ ~ In ellipses mid)
      /\ (~ 50 + 2 < 100 ->
         exists rest, pages = "1" :: ellipses :: rest /\ ~ In ellipses rest))).
Proof.
  split; [lia |].
  apply (determinePages_ellipses_placement 50 100 12 2); lia.
Defined.

Lemma buildObsDateSearchValues_single_day_witness :
  lickNoon "2024-01-05" = Some 1704484800000 /\
  exists n', buildObsDateSearchValues ["2024-01-05"] 0%nat
             = Normal [isoString 1704484800000; isoString (1704484800000 + (msPerDay - 1))] n'.
Proof.
  split; [vm_compute; reflexivity |].
  apply (buildObsDateSearchValues_single_day "2024-01-05" 1704484800000 0%nat).
  vm_compute. reflexivity.
Defined.

Lemma buildObsDateSearchValues_order_independent_witness :
  lickNoon "2024-03-01" = Some 1709323200000 /\ lickNoon "2024-02-28" = Some 1709150400000 /\
  1709323200000 <> 1709150400000 /\
  buildObsDateSearchValues ["2024-03-01"; "2024-02-28"] 0%nat
  = Normal [isoString (Z.min 1709323200000 1709150400000);
            isoString (Z.max 1709323200000 1709150400000)] 2%nat
  /\ buildObsDateSearchValues ["2024-02-28"; "2024-03-01"] 0%nat
  = Normal [isoString (Z.min 1709323200000 1709150400000);
            isoString (Z.max 1709323200000 1709150400000)] 2%nat.
Proof.
  split; [vm_compute; reflexivity |].
  split; [vm_compute; reflexivity |].
  split; [lia |].
  apply (buildObsDateSearchValues_order_independent "2024-03-01" "2024-02-28"
           1709323200000 1709150400000 0%nat); [vm_compute; reflexivity | vm_compute; reflexivity | lia].
Defined.

Lemma downloadAll_follows_next_witness :
  buildQueryParams exampleConfig exampleForm (QNum 1) 0%nat = Normal exampleQuery 2%nat /\
  visits exampleBackend (downloadAllURL exampleConfig exampleQuery) examplePages /\
  (List.length examplePages <= 10)%nat /\
  (Forall okPage examplePages ->
     downloadLoop exampleBackend 10 (downloadAllURL exampleConfig exampleQuery) []
     = LoopDone (flat_map pageFilenames examplePages)
     /\ downloadAll exampleConfig exampleForm exampleBackend 10 0%nat
        = submitDownload (flat_map pageFilenames examplePages))
  /\ (forall pre p post m, examplePages = pre ++ p :: post -> Forall okPage pre ->
      pageError p = Some m -> downloadAll exampleConfig exampleForm exampleBackend 10 0%nat
                              = ShowedError m).
Proof.
  assert (Hq : buildQueryParams exampleConfig exampleForm (QNum 1) 0%nat
               = Normal exampleQuery 2%nat) by (vm_compute; reflexivity).
  assert (Hv : visits exampleBackend (downloadAllURL exampleConfig exampleQuery) examplePages).
  { apply visits_next with examplePage2URL; [vm_compute; reflexivity |].
    apply visits_last. vm_compute. reflexivity. }
  split; [exact Hq | split; [exact Hv | split; [simpl; lia |]]].
  apply (downloadAll_follows_next exampleConfig exampleForm exampleBackend 0%nat exampleQuery 2%nat
           examplePages 10 Hq Hv). simpl. lia.
Defined.

Lemma processResults_error_banner_witness :
  qr_error exampleErrorResult = Some (Some "Archive server returned error code 500") /\
  exists p', processResults exampleQuery exampleErrorResult examplePage = Finished p'
             /\ errorBanner p' = errorBanner examplePage ++ ["Archive server returned error code 500"]
             /\ countText p' = "Number of results: 0"
             /\ tableHidden p' = true /\ countFooterHidden p' = true
             /\ pageControlsHidden p' = true.
Proof.
  split; [reflexivity |].
  apply (proj1 (processResults_error_banner exampleQuery exampleErrorResult examplePage)).
  reflexivity.
Defined.

Lemma buildQueryParams_checked_fields_witness :
  (forall f, In f (searchFields exampleConfig) -> ~ In f optionKeys) /\
  buildQueryParams exampleConfig exampleForm (QNum 1) 0%nat = Normal exampleQuery 2%nat /\
  In "filename" (searchFields exampleConfig) /\
  ((exists op vs, mapGet "filename" exampleQuery = Some (QSearch op vs))
     <-> queryBy exampleForm "filename" = Some true)
  /\ (queryBy exampleForm "filename" <> Some true -> mapGet "filename" exampleQuery = None).
Proof.
  assert (Hk : forall f, In f (searchFields exampleConfig) -> ~ In f optionKeys).
  { simpl. intros f Hf. unfold optionKeys. simpl.
    destruct Hf as [<- | [<- | [<- | [<- | []]]]]; intuition discriminate. }
  assert (Hq : buildQueryParams exampleConfig exampleForm (QNum 1) 0%nat
               = Normal exampleQuery 2%nat) by (vm_compute; reflexivity).
  split; [exact Hk | split; [exact Hq | split; [simpl; tauto |]]].
  apply (buildQueryParams_checked_fields exampleConfig exampleForm (QNum 1) 0%nat
           exampleQuery 2%nat Hk Hq "filename"). simpl. tauto.
Defined.

Lemma buildQueryParams_filters_witness :
  buildQueryParams exampleConfig exampleForm (QNum 1) 0%nat = Normal exampleQuery 2%nat /\
  mapGet "filters" exampleQuery
  = Some (QList ("instrument" :: checkedNonCategory exampleConfig (instrumentBoxes exampleForm))).
Proof.
  assert (Hq : buildQueryParams exampleConfig exampleForm (QNum 1) 0%nat
               = Normal exampleQuery 2%nat) by (vm_compute; reflexivity).
  split; [exact Hq |].
  apply (buildQueryParams_filters exampleConfig exampleForm (QNum 1) 0%nat exampleQuery 2%nat Hq).
Defined.

Lemma buildObsDateSearchValues_same_date_witness :
  lickNoon "2024-01-05" = Some 1704484800000 /\
  (forall s e, newDateFromString (String.append "2024-01-05" lickNoonSuffix) 0%nat = Normal s 1%nat ->
               newDateFromString (String.append "2024-01-05" lickNoonSuffix) 1%nat = Normal e 2%nat ->
               looseEqObj s e = false)
  /\ buildObsDateSearchValues ["2024-01-05"; "2024-01-05"] 0%nat
     = Normal [isoString 1704484800000; isoString 1704484800000] 2%nat.
Proof.
  split; [vm_compute; reflexivity |].
  apply (buildObsDateSearchValues_same_date "2024-01-05" 1704484800000 0%nat).
  vm_compute. reflexivity.
Defined.

Lemma determinePages_numbers_increasing_witness :
  1 <= 20 /\ 4 <= 10 /\
  exists xs,
    filter (fun e => negb (String.eqb e ellipses)) (determinePages 5 20 10 2) = map string_of_Z xs
    /\ Sorted Z.lt xs /\ Forall (fun x => 1 <= x <= 20) xs.
Proof.
  split; [lia | split; [lia |]].
  apply (determinePages_numbers_increasing 5 20 10 2); lia.
Defined.

Lemma determinePages_shows_surrounding_witness :
  1 <= 5 <= 20 /\ 0 <= 2 /\ 2 * 2 + 5 <= 10 /\ 1 <= 7 <= 20 /\ Z.abs (7 - 5) <= 2 /\
  In (string_of_Z 7) (determinePages 5 20 10 2).
Proof.
  do 5 (split; [lia |]).
  apply (determinePages_shows_surrounding 5 20 10 2 7); lia.
Defined.

Lemma buildPageControls_prev_next_witness :
  0 <= qr_count exampleResultPage /\ 0 < 50 /\
  exists prevValue nextValue mid,
    buildPageControls 50 2 exampleResultPage
      = PageButton "<" prevValue :: mid ++ [PageButton ">" nextValue]
    /\ (prevValue = None <-> 2 <= 1 \/ qr_previous exampleResultPage = None)
    /\ (nextValue = None <->
          qr_next exampleResultPage = None
          \/ (qr_previous exampleResultPage <> None /\ 2 <= 2
              /\ ceilDiv (qr_count exampleResultPage) 50 < 2 - 1)).
Proof.
  split; [vm_compute; discriminate | split; [lia |]].
  apply (buildPageControls_prev_next 50 2 exampleResultPage); [vm_compute; discriminate | lia].
Defined.

Lemma buildPageControls_current_disabled_witness :
  0 <= qr_count exampleResultPage /\ 0 < 50 /\
  1 <= 2 <= ceilDiv (qr_count exampleResultPage) 50 /\
  exists prevValue nextValue mid,
    buildPageControls 50 2 exampleResultPage
      = PageButton "<" prevValue :: mid ++ [PageButton ">" nextValue]
    /\ filter disabledButton mid = [PageButton (string_of_Z 2) None].
Proof.
  assert (Hc : 0 <= qr_count exampleResultPage) by (vm_compute; discriminate).
  assert (Ht : 1 <= 2 <= ceilDiv (qr_count exampleResultPage) 50)
    by (vm_compute; split; discriminate).
  split; [exact Hc | split; [lia | split; [exact Ht |]]].
  apply (buildPageControls_current_disabled 50 2 exampleResultPage Hc); [lia | exact Ht].
Defined.

Lemma getResultColsInDisplayOrder_nodup_witness :
  NoDup ["filename"; "obs_date"; "object"] /\
  NoDup ["obs_date"; "download_link"; "frame"; "filename"] /\
  NoDup (getResultColsInDisplayOrder ["filename"; "obs_date"; "object"]
                                     ["obs_date"; "download_link"; "frame"; "filename"]).
Proof.
  assert (Ho : NoDup ["filename"; "obs_date"; "object"])
    by (repeat constructor; cbn; intuition discriminate).
  assert (Hr : NoDup ["obs_date"; "download_link"; "frame"; "filename"])
    by (repeat constructor; cbn; intuition discriminate).
  split; [exact Ho | split; [exact Hr |]].
  apply (getResultColsInDisplayOrder_nodup _ _ Ho Hr).
Defined.

Lemma selection_clicks_consistent_witness :
  selectionConsistent exampleSelection /\
  (forall i, selectionConsistent (clickRow i exampleSelection))
  /\ selectionConsistent (clickHeader exampleSelection).
Proof.
  assert (H : selectionConsistent exampleSelection) by (split; reflexivity).
  split; [exact H | apply (selection_clicks_consistent exampleSelection H)].
Defined.

Lemma clickRow_header_state_witness :
  selectionConsistent exampleSelection /\ (1 < List.length (rowChecks exampleSelection))%nat /\
  let st' := clickRow 1 exampleSelection in
  hdrChecked st' = forallb (fun b => b) (rowChecks st')
  /\ hdrIndeterminate st' = existsb (fun b => b) (rowChecks st')
                            && negb (forallb (fun b => b) (rowChecks st')).
Proof.
  assert (H : selectionConsistent exampleSelection) by (split; reflexivity).
  split; [exact H | split; [cbn; lia |]].
  apply (clickRow_header_state exampleSelection 1 H). cbn. lia.
Defined.

Lemma newResultTable_stale_counter_witness :
  1 <= numRowsSelected exampleSelection /\ (2 <= 3)%nat /\
  let st' := clickRow 0 (clickRow 0 (newResultTable 3 exampleSelection)) in
  rowChecks st' = repeat false 3 /\ selectedDisabled st' = false.
Proof.
  split; [cbn; lia | split; [lia |]].
  apply (newResultTable_stale_counter exampleSelection 3); [cbn; lia | lia].
Defined.

Lemma downloadSelected_checked_rows_witness :
  processResults exampleQuery exampleResultPage examplePage
    = Finished (match processResults exampleQuery exampleResultPage examplePage with
                | Finished p' | Aborted p' _ => p' end)
  /\ tableHidden (match processResults exampleQuery exampleResultPage examplePage with
                  | Finished p' | Aborted p' _ => p' end) = false
  /\ exists rows,
       qr_results exampleResultPage = Some rows
       /\ (List.length [false; true; true] = List.length rows ->
           downloadSelected (resultCheckboxes [false; true; true])
             (latestQueryResults (match processResults exampleQuery exampleResultPage examplePage with
                                  | Finished p' | Aborted p' _ => p' end))
           = Some (submitDownload (map (rowGet "filename") (checkedRows [false; true; true] rows)))).
Proof.
  assert (Hp : processResults exampleQuery exampleResultPage examplePage
    = Finished (match processResults exampleQuery exampleResultPage examplePage with
                | Finished p' | Aborted p' _ => p' end)) by (vm_compute; reflexivity).
  assert (Hh : tableHidden (match processResults exampleQuery exampleResultPage examplePage with
                  | Finished p' | Aborted p' _ => p' end) = false) by (vm_compute; reflexivity).
  split; [exact Hp | split; [exact Hh |]].
  apply (downloadSelected_checked_rows exampleQuery exampleResultPage examplePage _
           [false; true; true] Hp Hh).
Defined.

Lemma selectInstrumentChild_parent_witness :
  instruments exampleInstruments "Kast Blue"
    = Some {| category := false; parent := "Kast"; children := [] |} /\
  instruments exampleInstruments "Kast"
    = Some {| category := true; parent := ""; children := ["Kast Blue"; "Kast Red"] |} /\
  ~ In "Kast" ["Kast Blue"; "Kast Red"] /\
  selectInstrumentChild exampleInstruments "Kast Blue" [false; true; true; false]
    = Some [true; true; true; false] /\
  (boxOf exampleInstruments [true; true; true; false] "Kast" = Some true
   <-> Forall (fun s => boxOf exampleInstruments [true; true; true; false] s = Some true)
              ["Kast Blue"; "Kast Red"])
  /\ (forall s, In s ["Kast Blue"; "Kast Red"] ->
        boxOf exampleInstruments [true; true; true; false] s
        = boxOf exampleInstruments [false; true; true; false] s)
  /\ boxOf exampleInstruments [true; true; true; false] "Kast" <> None.
Proof.
  assert (H1 : instruments exampleInstruments "Kast Blue"
    = Some {| category := false; parent := "Kast"; children := [] |}) by reflexivity.
  assert (H2 : instruments exampleInstruments "Kast"
    = Some {| category := true; parent := ""; children := ["Kast Blue"; "Kast Red"] |})
    by reflexivity.
  assert (H3 : ~ In "Kast" ["Kast Blue"; "Kast Red"]) by (cbn; intuition discriminate).
  assert (H4 : selectInstrumentChild exampleInstruments "Kast Blue" [false; true; true; false]
    = Some [true; true; true; false]) by (vm_compute; reflexivity).
  split; [exact H1 | split; [exact H2 | split; [exact H3 | split; [exact H4 |]]]].
  exact (selectInstrumentChild_parent exampleInstruments "Kast Blue" _ _ _ _ H1 H2 H3 H4).
Defined.

Lemma selectInstrumentCategory_children_witness :
  instruments exampleInstruments "Kast"
    = Some {| category := true; parent := ""; children := ["Kast Blue"; "Kast Red"] |} /\
  selectInstrumentCategory exampleInstruments "Kast" false [false; true; true; true]
    = Some [false; false; false; true] /\
  (forall c, In c ["Kast Blue"; "Kast Red"] ->
     boxOf exampleInstruments [false; false; false; true] c = Some false)
  /\ (forall key, (forall c, In c ["Kast Blue"; "Kast Red"] ->
                   indexOf c (instrumentOrder exampleInstruments)
                   <> indexOf key (instrumentOrder exampleInstruments)) ->
        boxOf exampleInstruments [false; false; false; true] key
        = boxOf exampleInstruments [false; true; true; true] key).
Proof.
  assert (H1 : instruments exampleInstruments "Kast"
    = Some {| category := true; parent := ""; children := ["Kast Blue"; "Kast Red"] |})
    by reflexivity.
  assert (H2 : selectInstrumentCategory exampleInstruments "Kast" false [false; true; true; true]
    = Some [false; false; false; true]) by (vm_compute; reflexivity).
  split; [exact H1 | split; [exact H2 |]].
  exact (selectInstrumentCategory_children exampleInstruments "Kast" false _ _ _ H1 H2).
Defined.

Lemma login_status_failure_witness :
  looseNull (apiCSRFToken (client exampleWorld)) = true /\
  looseNull (errorMessage (client (run (getLoginStatus exampleServerError) exampleWorld))) = false /\
  run (login exampleServerError "observer" "secret") exampleWorld
  = run (getLoginStatus exampleServerError) exampleWorld.
Proof.
  assert (H1 : looseNull (apiCSRFToken (client exampleWorld)) = true) by reflexivity.
  assert (H2 : looseNull (errorMessage (client (run (getLoginStatus exampleServerError) exampleWorld)))
               = false) by (vm_compute; reflexivity).
  split; [exact H1 | split; [exact H2 |]].
  exact (login_status_failure exampleServerError "observer" "secret" exampleWorld H1 H2).
Defined.

Lemma toggleTheme_cycle_witness :
  toggleTheme None exampleThemeState = Some (setTheme (JStr "dark") exampleThemeState) /\
  let st' := setTheme (JStr "dark") exampleThemeState in
  (storedTheme st' = Some "dark" \/ storedTheme st' = Some "light")
  /\ themeShown st'
  /\ initializeTheme None st' = Some st'
  /\ (exists st'', toggleTheme None st' = Some st'' /\ toggleTheme None st'' = Some st').
Proof.
  assert (H : toggleTheme None exampleThemeState = Some (setTheme (JStr "dark") exampleThemeState))
    by reflexivity.
  split; [exact H |].
  exact (toggleTheme_cycle None exampleThemeState _ H).
Defined.

Lemma initializeTheme_stored_witness :
  storedTheme exampleThemeState = Some "light" /\ "light" <> "" /\
  exists st', initializeTheme None exampleThemeState = Some st'
              /\ storedTheme st' = Some "light" /\ themeShown st'.
Proof.
  assert (H1 : storedTheme exampleThemeState = Some "light") by reflexivity.
  assert (H2 : "light" <> "") by discriminate.
  split; [exact H1 | split; [exact H2 |]].
  exact (initializeTheme_stored None exampleThemeState "light" H1 H2).
Defined.
